(** * ADS7953 sampling driver (Src/ADC.c): shallow embedding and properties

    The driver samples a 16-channel converter over SPI, smooths every
    channel with a four-slot circular queue and exposes the averages once a
    60 s sampling window has elapsed.

    C integers are modelled as [Z].  Unsigned types wrap, and the wrap-around
    is written out with [to_uint8], [to_uint16] and [to_uint32].  The [int]
    fields of the queue ([front], [rear], [size]) are plain [Z]: signed
    overflow is undefined in C, and [Queue_inv] shows that they stay within
    [-1 .. 4].  C's [%] truncates towards zero, so it is [Z.rem]. *)

From Stdlib Require Import ZArith Lia.
From stdpp Require Import base list.

Local Open Scope Z_scope.

(** ** Fixed-width unsigned conversions *)

Definition to_uint8 (z : Z) : Z := z mod 256.
Definition to_uint16 (z : Z) : Z := z mod 65536.
Definition to_uint32 (z : Z) : Z := z mod 4294967296.

(** ** Constants of the source *)

Definition ADS7953_CMD_AUTO_1 : Z := 0x2000.
Definition ADS7953_CMD_RANGE_SELECT : Z := 0x4000.
Definition ADS7953_CMD_EXT_REF : Z := 0x1000.
Definition ADS7953_CMD_2X_GAIN : Z := 0x0800.
Definition ADS7953_NUM_CHANNELS : Z := 16.
Definition QUEUE_SIZE : Z := 4.
Definition ADS7953_CS_PIN : Z := 10.
Definition ADS7953_BUSY_PIN : Z := 11.

(** ** C arrays

    An array is a list read and written by a [Z] index.  An index outside the
    array is undefined behaviour in C; the model reads 0 and writes nothing
    there, and the invariants below show that the driver never does it. *)

Definition array_get (l : list Z) (i : Z) : Z :=
  if 0 <=? i then default 0 (l !! Z.to_nat i) else 0.

Definition array_set {A} (l : list A) (i : Z) (x : A) : list A :=
  if 0 <=? i then <[Z.to_nat i := x]> l else l.

(** ** The circular queue *)

Record Queue := mkQueue {
  data : list Z;   (* uint16_t data[QUEUE_SIZE] *)
  front : Z;       (* int *)
  rear : Z;        (* int *)
  size : Z         (* int *)
}.

Definition Queue_Init (q : Queue) : Queue :=
  {| data := data q; front := 0; rear := -1; size := 0 |}.

(** Returns the removed value and the queue it leaves. *)
Definition Queue_Dequeue (q : Queue) : Z * Queue :=
  if size q =? 0 then (0, q)
  else
    let value := array_get (data q) (front q) in
    (value,
     {| data := data q;
        front := Z.rem (front q + 1) QUEUE_SIZE;
        rear := rear q;
        size := size q - 1 |}).

(** The parameter [value] is a [uint16_t]: the argument is converted on the
    way in. *)
Definition Queue_Enqueue (q : Queue) (value : Z) : Queue :=
  let q1 := if size q =? QUEUE_SIZE then snd (Queue_Dequeue q) else q in
  let rear' := Z.rem (rear q1 + 1) QUEUE_SIZE in
  {| data := array_set (data q1) rear' (to_uint16 value);
     front := front q1;
     rear := rear';
     size := size q1 + 1 |}.

(** The cell the loop of [Queue_Average] reads at step [i]. *)
Definition Queue_cell (q : Queue) (i : Z) : Z :=
  array_get (data q) (Z.rem (front q + i) QUEUE_SIZE).

(** [sum] is a [uint32_t]; [sum / q->size] is an unsigned division ([size] is
    converted to unsigned), and the quotient is cast to [uint16_t]. *)
Definition Queue_Average (q : Queue) : Z :=
  if size q =? 0 then 0
  else
    let sum :=
      fold_left (fun sum i => to_uint32 (sum + Queue_cell q i))
                (seqZ 0 (size q)) 0 in
    to_uint16 (sum / to_uint32 (size q)).

(** *** Abstraction: the elements a queue holds, oldest first *)

Definition Queue_contents (q : Queue) : list Z :=
  Queue_cell q <$> seqZ 0 (size q).

Definition Queue_inv (q : Queue) : Prop :=
  length (data q) = 4%nat /\
  0 <= front q < 4 /\
  -1 <= rear q < 4 /\
  0 <= size q <= 4 /\
  Z.rem (rear q + 1) 4 = Z.rem (front q + size q) 4.

Definition is_uint16 (v : Z) : Prop := 0 <= v < 65536.
Definition is_sample (v : Z) : Prop := 0 <= v <= 4095.

Fixpoint sum_list_Z (l : list Z) : Z :=
  match l with
  | [] => 0
  | x :: l' => x + sum_list_Z l'
  end.

(** The last [n] elements of a list. *)
Definition lastn {A} (n : nat) (l : list A) : list A :=
  drop (length l - n) l.

(** ** Driver state *)

Record ADS7953_Config := mkConfig {
  spi_channel : Z;   (* uint8_t *)
  spi_speed : Z      (* uint32_t *)
}.

Record ADS7953_SampleSet := mkSampleSet {
  channel_queues : list Queue;   (* Queue channel_queues[ADS7953_NUM_CHANNELS] *)
  channel_averages : list Z;     (* uint16_t channel_averages[ADS7953_NUM_CHANNELS] *)
  timestamp : Z                  (* uint32_t *)
}.

(** The file-scope variables, and the [static] local [current_channel] of
    [ADS7953_ProcessSamples], which lives as long as they do. *)
Record Driver := mkDriver {
  g_sample_set : ADS7953_SampleSet;
  g_sampling_complete : bool;
  g_start_time : Z;              (* uint32_t *)
  current_channel : Z            (* static uint8_t *)
}.

Definition set_channel_queues (qs : list Queue) (s : ADS7953_SampleSet) :=
  {| channel_queues := qs;
     channel_averages := channel_averages s;
     timestamp := timestamp s |}.

Definition set_channel_averages (avs : list Z) (s : ADS7953_SampleSet) :=
  {| channel_queues := channel_queues s;
     channel_averages := avs;
     timestamp := timestamp s |}.

Definition set_timestamp (t : Z) (s : ADS7953_SampleSet) :=
  {| channel_queues := channel_queues s;
     channel_averages := channel_averages s;
     timestamp := t |}.

Definition set_g_sample_set (s : ADS7953_SampleSet) (d : Driver) :=
  {| g_sample_set := s;
     g_sampling_complete := g_sampling_complete d;
     g_start_time := g_start_time d;
     current_channel := current_channel d |}.

Definition set_g_sampling_complete (b : bool) (d : Driver) :=
  {| g_sample_set := g_sample_set d;
     g_sampling_complete := b;
     g_start_time := g_start_time d;
     current_channel := current_channel d |}.

Definition set_g_start_time (t : Z) (d : Driver) :=
  {| g_sample_set := g_sample_set d;
     g_sampling_complete := g_sampling_complete d;
     g_start_time := t;
     current_channel := current_channel d |}.

Definition set_current_channel (c : Z) (d : Driver) :=
  {| g_sample_set := g_sample_set d;
     g_sampling_complete := g_sampling_complete d;
     g_start_time := g_start_time d;
     current_channel := c |}.

(** All-zero storage, as static initialisation and [memset] leave it. *)
Definition zero_queue : Queue :=
  {| data := replicate 4 0; front := 0; rear := 0; size := 0 |}.

Definition zero_sample_set : ADS7953_SampleSet :=
  {| channel_queues := replicate 16 zero_queue;
     channel_averages := replicate 16 0;
     timestamp := 0 |}.

Definition zero_driver : Driver :=
  {| g_sample_set := zero_sample_set;
     g_sampling_complete := false;
     g_start_time := 0;
     current_channel := 0 |}.

(** [channel_queues[i]]; outside the array the model reads [zero_queue]. *)
Definition queue_get (qs : list Queue) (i : Z) : Queue :=
  if 0 <=? i then default zero_queue (qs !! Z.to_nat i) else zero_queue.

(** ** The hardware the driver talks to

    BSP_SPI.h, gpio.h and timer.h are not part of the sources.  Their
    functions are modelled by what the driver can observe of them: every
    call that returns a value takes it from a trace of readings supplied by
    the hardware, and every call is appended to a log.  A computation has no
    result ([None]) when a trace ends before the call that needs it; for the
    busy pin this is the conversion-ready line never asserting, on which the
    C loop spins for ever. *)

Inductive HwEvent :=
| Ev_SPI_Init (channel speed : Z)
| Ev_GPIO_SetOutput (pin : Z)
| Ev_GPIO_SetInput (pin : Z)
| Ev_GPIO_SetHigh (pin : Z)
| Ev_GPIO_SetLow (pin : Z)
| Ev_SPI_Transfer16 (channel command : Z).

Record World := mkWorld {
  drv : Driver;
  timer_in : list Z;      (* successive readings of Timer_GetCurrentTime *)
  spi_in : list Z;        (* successive words returned by SPI_Transfer16 *)
  gpio_in : list Z;       (* successive levels returned by GPIO_Read *)
  hw_out : list HwEvent   (* calls made so far, oldest first *)
}.

Definition set_drv (d : Driver) (w : World) :=
  {| drv := d; timer_in := timer_in w; spi_in := spi_in w;
     gpio_in := gpio_in w; hw_out := hw_out w |}.

Definition set_timer_in (l : list Z) (w : World) :=
  {| drv := drv w; timer_in := l; spi_in := spi_in w;
     gpio_in := gpio_in w; hw_out := hw_out w |}.

Definition set_spi_in (l : list Z) (w : World) :=
  {| drv := drv w; timer_in := timer_in w; spi_in := l;
     gpio_in := gpio_in w; hw_out := hw_out w |}.

Definition set_gpio_in (l : list Z) (w : World) :=
  {| drv := drv w; timer_in := timer_in w; spi_in := spi_in w;
     gpio_in := l; hw_out := hw_out w |}.

Definition log_event (e : HwEvent) (w : World) :=
  {| drv := drv w; timer_in := timer_in w; spi_in := spi_in w;
     gpio_in := gpio_in w; hw_out := hw_out w ++ [e] |}.

(** State and failure monad over the world. *)
Definition M (A : Type) : Type := World -> option (A * World).

#[export] Instance M_ret : MRet M := fun A a w => Some (a, w).
#[export] Instance M_bind : MBind M := fun A B k m w =>
  match m w with
  | Some (a, w') => k a w'
  | None => None
  end.

Definition get_drv : M Driver := fun w => Some (drv w, w).
Definition modify_drv (f : Driver -> Driver) : M unit :=
  fun w => Some (tt, set_drv (f (drv w)) w).
Definition emit (e : HwEvent) : M unit := fun w => Some (tt, log_event e w).

Definition SPI_Init (channel speed : Z) : M unit := emit (Ev_SPI_Init channel speed).
Definition GPIO_SetOutput (pin : Z) : M unit := emit (Ev_GPIO_SetOutput pin).
Definition GPIO_SetInput (pin : Z) : M unit := emit (Ev_GPIO_SetInput pin).
Definition GPIO_SetHigh (pin : Z) : M unit := emit (Ev_GPIO_SetHigh pin).
Definition GPIO_SetLow (pin : Z) : M unit := emit (Ev_GPIO_SetLow pin).

Definition Timer_GetCurrentTime : M Z := fun w =>
  match timer_in w with
  | [] => None
  | t :: rest => Some (t, set_timer_in rest w)
  end.

Definition SPI_Transfer16 (channel command : Z) : M Z := fun w =>
  match spi_in w with
  | [] => None
  | rx :: rest =>
      Some (rx, log_event (Ev_SPI_Transfer16 channel command) (set_spi_in rest w))
  end.

Definition GPIO_Read (pin : Z) : M Z := fun w =>
  match gpio_in w with
  | [] => None
  | level :: rest => Some (level, set_gpio_in rest w)
  end.

(** [while (GPIO_Read(ADS7953_BUSY_PIN) == 0);] consumes readings up to and
    including the first that is not 0. *)
Fixpoint skip_until_ready (levels : list Z) : option (list Z) :=
  match levels with
  | [] => None
  | level :: rest => if level =? 0 then skip_until_ready rest else Some rest
  end.

Definition wait_conversion : M unit := fun w =>
  match skip_until_ready (gpio_in w) with
  | None => None
  | Some rest => Some (tt, set_gpio_in rest w)
  end.

(** ** The driver

    The target is a 32-bit STM32L4 (Makefile): [int] and [uint32_t] have the
    same width, so [current_time - g_start_time] is computed modulo 2^32. *)

Definition ADS7953_Init (config : ADS7953_Config) : M unit :=
  SPI_Init (spi_channel config) (spi_speed config);;
  GPIO_SetOutput ADS7953_CS_PIN;;
  GPIO_SetInput ADS7953_BUSY_PIN;;
  GPIO_SetHigh ADS7953_CS_PIN;;
  let config_cmd :=
    Z.lor (Z.lor ADS7953_CMD_AUTO_1 ADS7953_CMD_EXT_REF) ADS7953_CMD_2X_GAIN in
  GPIO_SetLow ADS7953_CS_PIN;;
  _ ← SPI_Transfer16 (spi_channel config) config_cmd;
  GPIO_SetHigh ADS7953_CS_PIN;;
  modify_drv (set_g_sample_set zero_sample_set);;
  modify_drv (fun d =>
    fold_left
      (fun d i =>
         let s := g_sample_set d in
         let qs := channel_queues s in
         set_g_sample_set
           (set_channel_queues (array_set qs i (Queue_Init (queue_get qs i))) s) d)
      (seqZ 0 ADS7953_NUM_CHANNELS) d).

Definition ADS7953_StartSampling : M unit :=
  modify_drv (set_g_sampling_complete false);;
  now ← Timer_GetCurrentTime;
  modify_drv (set_g_start_time (to_uint32 now));;
  GPIO_SetLow ADS7953_CS_PIN;;
  _ ← SPI_Transfer16 ADS7953_CS_PIN ADS7953_CMD_AUTO_1;
  _ ← SPI_Transfer16 ADS7953_CS_PIN 0;
  mret tt.

(** [current_time - g_start_time], both [uint32_t]. *)
Definition elapsed (now : Z) (d : Driver) : Z :=
  let current_time := to_uint32 now in
  to_uint32 (current_time - g_start_time d).

Definition ADS7953_IsSamplingComplete : M bool :=
  d ← get_drv;
  (if negb (g_sampling_complete d) then
     now ← Timer_GetCurrentTime;
     if 60000 <=? elapsed now d then
       modify_drv (set_g_sampling_complete true);;
       GPIO_SetHigh ADS7953_CS_PIN
     else mret tt
   else mret tt);;
  d' ← get_drv;
  mret (g_sampling_complete d').

(** [results] is the structure the caller's pointer designates; the value
    returned is that structure after the call.  The C function itself returns
    [void]. *)
Definition ADS7953_GetResults (results : ADS7953_SampleSet) : M ADS7953_SampleSet :=
  d ← get_drv;
  if g_sampling_complete d then mret (g_sample_set d) else mret results.

(** The statements of [ADS7953_ProcessSamples] that change the driver state,
    one definition each. *)

(** [Queue_Enqueue(&g_sample_set.channel_queues[current_channel], result & 0x0FFF);] *)
Definition store_result (result : Z) (d : Driver) : Driver :=
  let s := g_sample_set d in
  let qs := channel_queues s in
  let ch := current_channel d in
  let q := Queue_Enqueue (queue_get qs ch) (Z.land result 0x0FFF) in
  set_g_sample_set (set_channel_queues (array_set qs ch q) s) d.

(** [g_sample_set.channel_averages[current_channel] =
       Queue_Average(&g_sample_set.channel_queues[current_channel]);] *)
Definition store_average (d : Driver) : Driver :=
  let s := g_sample_set d in
  let ch := current_channel d in
  let avg := Queue_Average (queue_get (channel_queues s) ch) in
  set_g_sample_set
    (set_channel_averages (array_set (channel_averages s) ch avg) s) d.

(** [current_channel = (current_channel + 1) % ADS7953_NUM_CHANNELS;] *)
Definition next_channel (d : Driver) : Driver :=
  set_current_channel
    (to_uint8 (Z.rem (current_channel d + 1) ADS7953_NUM_CHANNELS)) d.

(** [g_sample_set.timestamp = Timer_GetCurrentTime() - g_start_time;] *)
Definition stamp (now : Z) (d : Driver) : Driver :=
  set_g_sample_set
    (set_timestamp (to_uint32 (now - g_start_time d)) (g_sample_set d)) d.

Definition ADS7953_ProcessSamples : M unit :=
  d ← get_drv;
  if negb (g_sampling_complete d) then
    wait_conversion;;
    rx ← SPI_Transfer16 ADS7953_CS_PIN 0;
    let result := to_uint16 rx in
    modify_drv (store_result result);;
    modify_drv store_average;;
    modify_drv next_channel;;
    d ← get_drv;
    (if current_channel d =? 0 then
       now ← Timer_GetCurrentTime;
       modify_drv (stamp now)
     else mret tt);;
    _ ← ADS7953_IsSamplingComplete;
    mret tt
  else mret tt.

(** *** Callers *)

(** [n] consecutive calls of [ADS7953_ProcessSamples]. *)
Fixpoint ProcessSamples_times (n : nat) : M unit :=
  match n with
  | O => mret tt
  | S n' => ADS7953_ProcessSamples;; ProcessSamples_times n'
  end.

(** What a caller may do within one session, once it has been started. *)
Inductive Call :=
| Call_IsSamplingComplete
| Call_ProcessSamples
| Call_GetResults (results : ADS7953_SampleSet).

(** A call together with what the caller sees of it: the flag returned by a
    poll, the destination after a read-out. *)
Inductive Seen :=
| Seen_flag (b : bool)
| Seen_nothing
| Seen_results (results : ADS7953_SampleSet).

Definition run_call (c : Call) : M Seen :=
  match c with
  | Call_IsSamplingComplete => b ← ADS7953_IsSamplingComplete; mret (Seen_flag b)
  | Call_ProcessSamples => ADS7953_ProcessSamples;; mret Seen_nothing
  | Call_GetResults results =>
      r ← ADS7953_GetResults results; mret (Seen_results r)
  end.

Fixpoint run_calls (cs : list Call) : M (list Seen) :=
  match cs with
  | [] => mret []
  | c :: cs' => o ← run_call c; os ← run_calls cs'; mret (o :: os)
  end.

(** *** Invariants of the driver state *)

Definition SampleSet_inv (s : ADS7953_SampleSet) : Prop :=
  length (channel_queues s) = 16%nat /\
  length (channel_averages s) = 16%nat /\
  Forall Queue_inv (channel_queues s).

Definition Driver_inv (d : Driver) : Prop :=
  0 <= current_channel d < 16 /\ SampleSet_inv (g_sample_set d).

(** How many readings of a level trace show the ready line asserted. *)
Fixpoint ready_count (levels : list Z) : nat :=
  match levels with
  | [] => O
  | level :: rest => if level =? 0 then ready_count rest else S (ready_count rest)
  end.

(** The sum as [Queue_Average] accumulates it, in a [uint32_t]. *)
Definition wrap_sum (l : list Z) : Z :=
  fold_left (fun sum x => to_uint32 (sum + x)) l 0.

(** *** Reference states and statement vocabulary *)

(** The sample set as [ADS7953_Init] leaves it. *)
Definition fresh_sample_set : ADS7953_SampleSet :=
  {| channel_queues := replicate 16 (Queue_Init zero_queue);
     channel_averages := replicate 16 0;
     timestamp := 0 |}.

(** [recorded_upto k rs s0 s]: compared with [s0], the sample set [s] has had
    exactly the channels below [k] recorded into, channel [c] with the low
    12 bits of the [c]-th transfer word of [rs], once each. *)
Definition recorded_upto (k : Z) (rs : list Z) (s0 s : ADS7953_SampleSet) : Prop :=
  forall c, 0 <= c < 16 ->
    queue_get (channel_queues s) c =
      (if c <? k
       then Queue_Enqueue (queue_get (channel_queues s0) c)
                          (Z.land (to_uint16 (array_get rs c)) 0x0FFF)
       else queue_get (channel_queues s0) c) /\
    array_get (channel_averages s) c =
      (if c <? k
       then Queue_Average (queue_get (channel_queues s) c)
       else array_get (channel_averages s0) c).

(** What each call shows its caller once the session is complete. *)
Definition seen_when_complete (s : ADS7953_SampleSet) (c : Call) : Seen :=
  match c with
  | Call_IsSamplingComplete => Seen_flag true
  | Call_ProcessSamples => Seen_nothing
  | Call_GetResults _ => Seen_results s
  end.

(** The driver right after [ADS7953_Init] and a start at clock 0. *)
Definition fresh_driver : Driver :=
  {| g_sample_set := fresh_sample_set;
     g_sampling_complete := false;
     g_start_time := 0;
     current_channel := 0 |}.

Definition demo_config : ADS7953_Config := {| spi_channel := 1; spi_speed := 1000000 |}.

(** Sixteen transfer words; the first has its four reserved bits set. *)
Definition demo_words : list Z :=
  [0xF123; 101; 102; 103; 104; 105; 106; 107;
   108; 109; 110; 111; 112; 113; 114; 115].

(** A ready line that is low once before every assertion. *)
Definition demo_levels : list Z := concat (replicate 16 [0; 1]).

(** A started session, with the clock readings to come. *)
Definition demo_world (timer : list Z) : World :=
  {| drv := fresh_driver;
     timer_in := timer;
     spi_in := demo_words;
     gpio_in := demo_levels;
     hw_out := [] |}.

(** The hardware at power-on: all variables zero, nothing logged. *)
Definition power_on (timer spi : list Z) : World :=
  {| drv := zero_driver;
     timer_in := timer;
     spi_in := spi;
     gpio_in := demo_levels;
     hw_out := [] |}.

(** What a run leaves, seen through [f]. *)
Definition observe {A B} (f : World -> B) (r : option (A * World)) : option B :=
  match r with
  | Some (_, w) => Some (f w)
  | None => None
  end.

Definition queue_of (c : Z) (w : World) : Queue :=
  queue_get (channel_queues (g_sample_set (drv w))) c.

(** *** Further callers and statement vocabulary *)

(** [n] successive calls of [Queue_Dequeue]: the values removed, first
    removed first, and the queue that is left. *)
Fixpoint Queue_drain (n : nat) (q : Queue) : list Z * Queue :=
  match n with
  | O => ([], q)
  | S n' =>
      let r := Queue_Dequeue q in
      let rs := Queue_drain n' (snd r) in
      (fst r :: fst rs, snd rs)
  end.

(** Any call of the driver's public functions. *)
Inductive Op :=
| Op_Init (config : ADS7953_Config)
| Op_StartSampling
| Op_IsSamplingComplete
| Op_ProcessSamples
| Op_GetResults (results : ADS7953_SampleSet).

Definition run_op (o : Op) : M unit :=
  match o with
  | Op_Init config => ADS7953_Init config
  | Op_StartSampling => ADS7953_StartSampling
  | Op_IsSamplingComplete => _ ← ADS7953_IsSamplingComplete; mret tt
  | Op_ProcessSamples => ADS7953_ProcessSamples
  | Op_GetResults results => _ ← ADS7953_GetResults results; mret tt
  end.

Fixpoint run_ops (os : list Op) : M unit :=
  match os with
  | [] => mret tt
  | o :: os' => run_op o;; run_ops os'
  end.

(** The sample bank is coherent: every queue holds 12-bit samples only, and
    every stored average is the average of its queue as it stands. *)
Definition Bank_inv (d : Driver) : Prop :=
  Driver_inv d /\
  forall c, 0 <= c < 16 ->
    Forall is_sample (Queue_contents (queue_get (channel_queues (g_sample_set d)) c)) /\
    array_get (channel_averages (g_sample_set d)) c =
      Queue_Average (queue_get (channel_queues (g_sample_set d)) c).

(** The level the log leaves the chip-select pin at: [Some true] high,
    [Some false] low, [None] never driven. *)
Definition cs_level (log : list HwEvent) : option bool :=
  fold_left
    (fun level e =>
       match e with
       | Ev_GPIO_SetHigh pin => if pin =? ADS7953_CS_PIN then Some true else level
       | Ev_GPIO_SetLow pin => if pin =? ADS7953_CS_PIN then Some false else level
       | _ => level
       end)
    log None.

(** Two sessions after an initialisation: two steps, a poll and a read-out in
    the first, one step in the second. *)
Definition demo_session : list Op :=
  [Op_Init demo_config;
   Op_StartSampling; Op_ProcessSamples; Op_ProcessSamples;
   Op_IsSamplingComplete; Op_GetResults zero_sample_set;
   Op_StartSampling; Op_ProcessSamples].

Definition demo_power_on : World :=
  power_on [0; 10; 20; 30; 40; 50] [0; 0; 0; 0xF123; 0x0456; 0; 0; 0x0789].

(** ** Proof automation *)

(** Case analysis on the finitely many index states of a queue. *)
Ltac queue_cases q H :=
  destruct q as [dat f r s];
  destruct H as (Hlen & Hf & Hr & Hs & Hrel); simpl in Hlen, Hf, Hr, Hs, Hrel;
  destruct dat as [|a [|b [|c [|d [|? ?]]]]]; try discriminate Hlen;
  assert (Hfc : f = 0 \/ f = 1 \/ f = 2 \/ f = 3) by lia;
  assert (Hsc : s = 0 \/ s = 1 \/ s = 2 \/ s = 3 \/ s = 4) by lia;
  assert (Hrc : r = -1 \/ r = 0 \/ r = 1 \/ r = 2 \/ r = 3) by lia;
  clear Hlen Hf Hr Hs;
  destruct Hfc as [->|[->|[->| ->]]];
  destruct Hsc as [->|[->|[->|[->| ->]]]];
  destruct Hrc as [->|[->|[->|[->| ->]]]];
  try discriminate Hrel; clear Hrel.

(** Runs the monadic plumbing of an operation applied to a world. *)
Ltac run_M :=
  cbv [mbind M_bind mret M_ret get_drv modify_drv emit
       SPI_Init GPIO_SetOutput GPIO_SetInput GPIO_SetHigh GPIO_SetLow
       Timer_GetCurrentTime SPI_Transfer16 GPIO_Read wait_conversion
       set_drv set_timer_in set_spi_in set_gpio_in log_event
       drv timer_in spi_in gpio_in hw_out negb].

(** ** Queue lemmas *)

Lemma to_uint16_range v : is_uint16 (to_uint16 v).
Proof. unfold is_uint16, to_uint16. apply Z.mod_pos_bound. lia. Qed.

Lemma to_uint16_id v : is_uint16 v -> to_uint16 v = v.
Proof. unfold is_uint16, to_uint16. intros H. apply Z.mod_small. lia. Qed.

Lemma to_uint32_id v : 0 <= v < 4294967296 -> to_uint32 v = v.
Proof. unfold to_uint32. intros H. apply Z.mod_small. lia. Qed.

Lemma Queue_Init_inv q : length (data q) = 4%nat -> Queue_inv (Queue_Init q).
Proof. intros H. unfold Queue_inv, Queue_Init; simpl. repeat split; try lia; done. Qed.

Lemma Queue_Init_contents q : Queue_contents (Queue_Init q) = [].
Proof. reflexivity. Qed.

Lemma Queue_Enqueue_inv q v : Queue_inv q -> Queue_inv (Queue_Enqueue q v).
Proof.
  intros H. queue_cases q H;
    unfold Queue_inv, Queue_Enqueue, Queue_Dequeue, QUEUE_SIZE; cbn;
    repeat split; (reflexivity || (vm_compute; congruence)).
Qed.

Lemma Queue_Enqueue_contents q v :
  Queue_inv q ->
  Queue_contents (Queue_Enqueue q v) =
  (if size q =? QUEUE_SIZE then tail (Queue_contents q) else Queue_contents q)
    ++ [to_uint16 v].
Proof.
  intros H. queue_cases q H; reflexivity.
Qed.

Lemma Queue_size_contents q :
  Queue_inv q -> size q = Z.of_nat (length (Queue_contents q)).
Proof.
  intros (_ & _ & _ & Hs & _). unfold Queue_contents.
  rewrite length_fmap, length_seqZ. lia.
Qed.

Lemma drop_S_tail {A} (n : nat) (l : list A) :
  drop (S n) l = tail (drop n l).
Proof.
  revert l. induction n as [| n IH]; intros [| y l]; try reflexivity.
  apply (IH l).
Qed.

Lemma lastn_snoc {A} (l : list A) (x : A) :
  lastn 4 (l ++ [x]) =
  (if Z.of_nat (length (lastn 4 l)) =? 4 then tail (lastn 4 l) else lastn 4 l)
    ++ [x].
Proof.
  unfold lastn. rewrite length_app, length_drop. simpl length.
  destruct (decide (length l < 4)%nat) as [Hlt | Hge].
  - replace (length l - 4)%nat with O by lia.
    replace (length l + 1 - 4)%nat with O by lia.
    rewrite !drop_0.
    destruct (Z.eqb_spec (Z.of_nat (length l - 0)) 4); [lia | reflexivity].
  - destruct (Z.eqb_spec (Z.of_nat (length l - (length l - 4))) 4); [| lia].
    replace (length l + 1 - 4)%nat with (S (length l - 4)) by lia.
    rewrite drop_app_le by lia.
    f_equal. apply drop_S_tail.
Qed.

Lemma Queue_fold_inv vs q :
  Queue_inv q -> Queue_inv (fold_left Queue_Enqueue vs q).
Proof.
  revert q. induction vs as [| v vs IH]; intros q H; simpl; [exact H |].
  apply IH, Queue_Enqueue_inv, H.
Qed.

(** Enqueuing a whole list into a fresh queue leaves its last four values. *)
Lemma Queue_fold_contents q0 vs :
  length (data q0) = 4%nat ->
  Queue_contents (fold_left Queue_Enqueue vs (Queue_Init q0)) =
  lastn 4 (to_uint16 <$> vs).
Proof.
  intros Hlen. induction vs as [| v vs IH] using rev_ind; [reflexivity |].
  rewrite fold_left_app. simpl.
  assert (Hinv : Queue_inv (fold_left Queue_Enqueue vs (Queue_Init q0)))
    by (apply Queue_fold_inv, Queue_Init_inv, Hlen).
  rewrite Queue_Enqueue_contents by exact Hinv.
  rewrite (Queue_size_contents _ Hinv), IH.
  rewrite fmap_app. simpl. unfold QUEUE_SIZE. symmetry. apply lastn_snoc.
Qed.

Lemma Queue_Average_contents q :
  Queue_Average q =
  if size q =? 0 then 0
  else to_uint16 (wrap_sum (Queue_contents q) / to_uint32 (size q)).
Proof.
  unfold Queue_Average, Queue_contents, wrap_sum.
  destruct (size q =? 0); [reflexivity |].
  do 2 f_equal. generalize 0 at 2 4. 
  induction (seqZ 0 (size q)) as [| i l IH]; intros acc; simpl; [reflexivity |].
  apply IH.
Qed.

Lemma sum_list_Z_bounds (l : list Z) (m : Z) :
  Forall (fun v => 0 <= v <= m) l ->
  0 <= sum_list_Z l <= Z.of_nat (length l) * m.
Proof.
  induction 1 as [| x l Hx _ IH]; simpl length; simpl sum_list_Z; [lia |].
  rewrite Nat2Z.inj_succ. lia.
Qed.

Lemma wrap_sum_exact (l : list Z) :
  Forall (fun v => 0 <= v <= 65535) l ->
  (length l <= 4)%nat ->
  wrap_sum l = sum_list_Z l.
Proof.
  intros Hl Hn. unfold wrap_sum.
  enough (G : forall acc, 0 <= acc -> acc + Z.of_nat (length l) * 65535 < 4294967296 ->
              fold_left (fun sum x => to_uint32 (sum + x)) l acc = acc + sum_list_Z l).
  { rewrite G; lia. }
  clear Hn. induction Hl as [| x l Hx Hl IH]; intros acc H0 Hacc; simpl.
  - lia.
  - simpl length in Hacc. rewrite Nat2Z.inj_succ in Hacc.
    rewrite to_uint32_id by lia. rewrite IH; lia.
Qed.

Lemma fmap_to_uint16_id (vs : list Z) :
  Forall is_uint16 vs -> to_uint16 <$> vs = vs.
Proof.
  induction 1 as [| v vs Hv _ IH]; [reflexivity |].
  rewrite fmap_cons, IH, to_uint16_id by exact Hv. reflexivity.
Qed.

Lemma Queue_contents_uint16 q0 vs :
  length (data q0) = 4%nat ->
  Forall is_uint16 (Queue_contents (fold_left Queue_Enqueue vs (Queue_Init q0))).
Proof.
  intros Hlen. rewrite Queue_fold_contents by exact Hlen.
  unfold lastn. apply Forall_drop, Forall_fmap, Forall_true.
  intros v. apply to_uint16_range.
Qed.

(** The average of a queue that obeys the invariant and is not empty is the
    truncated mean of its contents: neither the 32-bit accumulator nor the
    16-bit result wraps. *)
Lemma Queue_Average_exact q :
  Queue_inv q ->
  0 < size q ->
  Forall is_uint16 (Queue_contents q) ->
  Queue_Average q = Z.quot (sum_list_Z (Queue_contents q)) (size q).
Proof.
  intros Hinv Hpos Hall.
  pose proof (Queue_size_contents q Hinv) as Hsz.
  assert (Hs : size q <= 4) by (destruct Hinv as (_ & _ & _ & ? & _); lia).
  assert (Hall' : Forall (fun v => 0 <= v <= 65535) (Queue_contents q)).
  { eapply Forall_impl; [exact Hall |]. unfold is_uint16. intros; simpl; lia. }
  pose proof (sum_list_Z_bounds _ _ Hall') as Hsum.
  rewrite Queue_Average_contents.
  destruct (Z.eqb_spec (size q) 0); [lia |].
  rewrite wrap_sum_exact by (exact Hall' || lia).
  rewrite to_uint32_id by lia.
  rewrite Z.quot_div_nonneg by lia.
  apply to_uint16_id. unfold is_uint16. split.
  - apply Z.div_pos; lia.
  - apply Z.div_lt_upper_bound; nia.
Qed.

(** ** The bounded averaging buffer: claims C6, C7, C8 *)

(** C6.  FIFO eviction order: after [4 + k] values have been enqueued into a
    freshly initialised queue (capacity 4), the queue holds exactly the last
    four of them, oldest first, and [Queue_Average] is their mean, truncated;
    enqueuing 10, 20, 30, 40, 50 gives the average 35. *)
Theorem fifo_eviction_order (q0 : Queue) (vs : list Z) (k : nat) :
  length (data q0) = 4%nat ->
  Forall is_uint16 vs ->
  length vs = (4 + k)%nat ->
  let q := fold_left Queue_Enqueue vs (Queue_Init q0) in
  Queue_contents q = drop k vs /\
  length (Queue_contents q) = 4%nat /\
  Queue_Average q = Z.quot (sum_list_Z (drop k vs)) 4 /\
  Queue_Average (fold_left Queue_Enqueue [10; 20; 30; 40; 50] (Queue_Init q0)) = 35.
Proof.
  intros Hlen Hvs Hk q.
  assert (Hinv : forall l, Queue_inv (fold_left Queue_Enqueue l (Queue_Init q0)))
    by (intros l; apply Queue_fold_inv, Queue_Init_inv, Hlen).
  assert (Hc : Queue_contents q = drop k vs).
  { subst q. rewrite Queue_fold_contents by exact Hlen.
    rewrite fmap_to_uint16_id by exact Hvs.
    unfold lastn. f_equal. lia. }
  assert (Hl : length (Queue_contents q) = 4%nat)
    by (rewrite Hc, length_drop; lia).
  assert (Hs : size q = 4)
    by (subst q; rewrite (Queue_size_contents _ (Hinv vs)); lia).
  repeat split; [exact Hc | exact Hl | |].
  - rewrite <- Hc, <- Hs. subst q. apply Queue_Average_exact.
    + apply Hinv.
    + lia.
    + apply Queue_contents_uint16, Hlen.
  - rewrite Queue_Average_exact.
    + rewrite (Queue_size_contents _ (Hinv _)), Queue_fold_contents by exact Hlen.
      reflexivity.
    + apply Hinv.
    + rewrite (Queue_size_contents _ (Hinv _)), Queue_fold_contents by exact Hlen.
      vm_compute. reflexivity.
    + apply Queue_contents_uint16, Hlen.
Qed.

Lemma fifo_eviction_order_witness :
  let q := fold_left Queue_Enqueue [7; 8; 9; 10; 11; 12] (Queue_Init zero_queue) in
  Queue_contents q = [9; 10; 11; 12] /\
  length (Queue_contents q) = 4%nat /\
  Queue_Average q = Z.quot (sum_list_Z [9; 10; 11; 12]) 4 /\
  Queue_Average (fold_left Queue_Enqueue [10; 20; 30; 40; 50] (Queue_Init zero_queue)) = 35.
Proof.
  apply (fifo_eviction_order zero_queue [7; 8; 9; 10; 11; 12] 2).
  - reflexivity.
  - repeat constructor; unfold is_uint16; lia.
  - reflexivity.
Defined.

(** C7.  [Queue_Average] returns 0 on an empty queue.  On a queue that is not
    empty and holds 12-bit samples it returns the sum of exactly the held
    elements divided by their number, truncated; the sum is at most
    [QUEUE_SIZE * 4095], which fits the 32-bit accumulator. *)
Theorem Queue_Average_mean (q : Queue) :
  (size q = 0 -> Queue_Average q = 0) /\
  (Queue_inv q ->
   0 < size q ->
   Forall is_sample (Queue_contents q) ->
   Z.of_nat (length (Queue_contents q)) = size q /\
   wrap_sum (Queue_contents q) = sum_list_Z (Queue_contents q) /\
   sum_list_Z (Queue_contents q) <= QUEUE_SIZE * 4095 < 4294967296 /\
   Queue_Average q = Z.quot (sum_list_Z (Queue_contents q)) (size q)).
Proof.
  split.
  - intros H0. unfold Queue_Average. rewrite H0. reflexivity.
  - intros Hinv Hpos Hall.
    pose proof (Queue_size_contents q Hinv) as Hsz.
    assert (Hs : size q <= 4) by (destruct Hinv as (_ & _ & _ & ? & _); lia).
    assert (Hall' : Forall (fun v => 0 <= v <= 4095) (Queue_contents q)) by exact Hall.
    pose proof (sum_list_Z_bounds _ _ Hall') as Hsum.
    assert (H16 : Forall is_uint16 (Queue_contents q)).
    { eapply Forall_impl; [exact Hall |]. unfold is_sample, is_uint16. intros; simpl; lia. }
    split; [lia |]. split; [| split].
    + apply wrap_sum_exact; [| lia].
      eapply Forall_impl; [exact Hall |]. unfold is_sample. intros; simpl; lia.
    + unfold QUEUE_SIZE. lia.
    + apply Queue_Average_exact; assumption.
Qed.

Lemma Queue_Average_mean_witness :
  Queue_Average (Queue_Init zero_queue) = 0 /\
  Queue_Average (fold_left Queue_Enqueue [4095; 4095; 4094] (Queue_Init zero_queue)) = 4094.
Proof.
  split.
  - apply (proj1 (Queue_Average_mean (Queue_Init zero_queue))). reflexivity.
  - pose (q := fold_left Queue_Enqueue [4095; 4095; 4094] (Queue_Init zero_queue)).
    assert (Hinv : Queue_inv q)
      by (unfold Queue_inv; vm_compute; repeat split; congruence).
    assert (Hall : Forall is_sample (Queue_contents q))
      by (vm_compute; repeat constructor; congruence).
    destruct (proj2 (Queue_Average_mean q) Hinv eq_refl Hall) as (_ & _ & _ & Havg).
    exact Havg.
Defined.

(** C8.  Bounded size: whatever is enqueued into a freshly initialised queue,
    its size never exceeds [QUEUE_SIZE]; a further enqueue always goes
    through, and when the queue is full it drops exactly the oldest element
    and appends the new one. *)
Theorem Queue_size_bounded (q0 : Queue) (vs : list Z) :
  length (data q0) = 4%nat ->
  let q := fold_left Queue_Enqueue vs (Queue_Init q0) in
  0 <= size q <= QUEUE_SIZE /\
  size q = Z.of_nat (length (Queue_contents q)) /\
  forall v,
    size (Queue_Enqueue q v) <= QUEUE_SIZE /\
    Queue_contents (Queue_Enqueue q v) =
      (if size q =? QUEUE_SIZE then tail (Queue_contents q) else Queue_contents q)
        ++ [to_uint16 v].
Proof.
  intros Hlen q.
  assert (Hinv : Queue_inv q) by (apply Queue_fold_inv, Queue_Init_inv, Hlen).
  split; [| split].
  - destruct Hinv as (_ & _ & _ & ? & _). unfold QUEUE_SIZE. lia.
  - apply Queue_size_contents, Hinv.
  - intros v. split.
    + destruct (Queue_Enqueue_inv q v Hinv) as (_ & _ & _ & ? & _).
      unfold QUEUE_SIZE. lia.
    + apply Queue_Enqueue_contents, Hinv.
Qed.

Lemma Queue_size_bounded_witness :
  let q := fold_left Queue_Enqueue [1; 2; 3; 4; 5; 6; 7] (Queue_Init zero_queue) in
  0 <= size q <= QUEUE_SIZE /\
  size q = Z.of_nat (length (Queue_contents q)) /\
  forall v,
    size (Queue_Enqueue q v) <= QUEUE_SIZE /\
    Queue_contents (Queue_Enqueue q v) =
      (if size q =? QUEUE_SIZE then tail (Queue_contents q) else Queue_contents q)
        ++ [to_uint16 v].
Proof.
  apply (Queue_size_bounded zero_queue [1; 2; 3; 4; 5; 6; 7]). reflexivity.
Defined.

(** ** Driver lemmas *)

(** The busy-wait is the loop over [GPIO_Read] that the source writes. *)
Lemma wait_conversion_unroll (w : World) :
  wait_conversion w =
  (level ← GPIO_Read ADS7953_BUSY_PIN;
   if level =? 0 then wait_conversion else mret tt) w.
Proof.
  destruct w as [d ti si [| level rest] out]; [reflexivity |].
  unfold wait_conversion at 1. cbv [mbind M_bind GPIO_Read gpio_in set_gpio_in].
  simpl skip_until_ready. destruct (level =? 0); reflexivity.
Qed.

Lemma IsSamplingComplete_done w :
  g_sampling_complete (drv w) = true ->
  ADS7953_IsSamplingComplete w = Some (true, w).
Proof.
  intros H. destruct w as [d ti si gi out]; simpl in H.
  unfold ADS7953_IsSamplingComplete. run_M. rewrite H. run_M.
  rewrite H. reflexivity.
Qed.

Lemma IsSamplingComplete_poll w t ts :
  g_sampling_complete (drv w) = false ->
  timer_in w = t :: ts ->
  ADS7953_IsSamplingComplete w =
  Some (if 60000 <=? elapsed t (drv w)
        then (true, log_event (Ev_GPIO_SetHigh ADS7953_CS_PIN)
                      (set_drv (set_g_sampling_complete true (drv w))
                               (set_timer_in ts w)))
        else (false, set_timer_in ts w)).
Proof.
  intros H Ht. destruct w as [d ti si gi out]; simpl in H, Ht. subst ti.
  unfold ADS7953_IsSamplingComplete. run_M. rewrite H. run_M.
  destruct (60000 <=? elapsed t d); run_M; [reflexivity |].
  rewrite H. reflexivity.
Qed.

Lemma GetResults_eq results w :
  ADS7953_GetResults results w =
  Some (if g_sampling_complete (drv w) then g_sample_set (drv w) else results, w).
Proof.
  destruct w as [d ti si gi out].
  unfold ADS7953_GetResults. run_M.
  destruct (g_sampling_complete d); reflexivity.
Qed.

Lemma ProcessSamples_done w :
  g_sampling_complete (drv w) = true ->
  ADS7953_ProcessSamples w = Some (tt, w).
Proof.
  intros H. destruct w as [d ti si gi out]; simpl in H.
  unfold ADS7953_ProcessSamples. run_M. rewrite H. reflexivity.
Qed.

Lemma StartSampling_eq w t ts a b spi' :
  timer_in w = t :: ts ->
  spi_in w = a :: b :: spi' ->
  ADS7953_StartSampling w =
  Some (tt,
        {| drv := set_g_start_time (to_uint32 t)
                    (set_g_sampling_complete false (drv w));
           timer_in := ts;
           spi_in := spi';
           gpio_in := gpio_in w;
           hw_out := hw_out w ++
             [Ev_GPIO_SetLow ADS7953_CS_PIN;
              Ev_SPI_Transfer16 ADS7953_CS_PIN ADS7953_CMD_AUTO_1;
              Ev_SPI_Transfer16 ADS7953_CS_PIN 0] |}).
Proof.
  intros Ht Hs. destruct w as [d ti si gi out]; simpl in Ht, Hs. subst ti si.
  unfold ADS7953_StartSampling. run_M.
  rewrite <- !app_assoc. reflexivity.
Qed.

(** The driver state after the three state-changing statements of a step. *)
Lemma step_fields result d :
  let d1 := next_channel (store_average (store_result result d)) in
  g_start_time d1 = g_start_time d /\
  g_sampling_complete d1 = g_sampling_complete d /\
  current_channel d1 = to_uint8 (Z.rem (current_channel d + 1) ADS7953_NUM_CHANNELS).
Proof. repeat split. Qed.

Lemma ProcessSamples_step_nowrap w g' rx spi' t ts :
  g_sampling_complete (drv w) = false ->
  skip_until_ready (gpio_in w) = Some g' ->
  spi_in w = rx :: spi' ->
  timer_in w = t :: ts ->
  let d1 := next_channel (store_average (store_result (to_uint16 rx) (drv w))) in
  current_channel d1 <> 0 ->
  ADS7953_ProcessSamples w =
  Some (tt,
        let w1 := {| drv := d1; timer_in := ts; spi_in := spi'; gpio_in := g';
                     hw_out := hw_out w ++ [Ev_SPI_Transfer16 ADS7953_CS_PIN 0] |} in
        if 60000 <=? elapsed t (drv w)
        then log_event (Ev_GPIO_SetHigh ADS7953_CS_PIN)
               (set_drv (set_g_sampling_complete true d1) w1)
        else w1).
Proof.
  intros H Hg Hs Ht d1 Hch.
  destruct w as [d ti si gi out]; simpl in H, Hg, Hs, Ht, d1. subst si ti.
  unfold ADS7953_ProcessSamples. run_M. rewrite H, Hg. run_M.
  fold d1. destruct (Z.eqb_spec (current_channel d1) 0) as [E | _]; [contradiction |].
  cbv beta iota.
  rewrite (IsSamplingComplete_poll (mkWorld d1 (t :: ts) _ _ _) t ts H eq_refl).
  unfold elapsed. simpl.
  destruct (60000 <=? _); reflexivity.
Qed.

Lemma ProcessSamples_step_wrap w g' rx spi' t1 t2 ts :
  g_sampling_complete (drv w) = false ->
  skip_until_ready (gpio_in w) = Some g' ->
  spi_in w = rx :: spi' ->
  timer_in w = t1 :: t2 :: ts ->
  let d1 := next_channel (store_average (store_result (to_uint16 rx) (drv w))) in
  current_channel d1 = 0 ->
  ADS7953_ProcessSamples w =
  Some (tt,
        let w1 := {| drv := stamp t1 d1; timer_in := ts; spi_in := spi';
                     gpio_in := g';
                     hw_out := hw_out w ++ [Ev_SPI_Transfer16 ADS7953_CS_PIN 0] |} in
        if 60000 <=? elapsed t2 (drv w)
        then log_event (Ev_GPIO_SetHigh ADS7953_CS_PIN)
               (set_drv (set_g_sampling_complete true (stamp t1 d1)) w1)
        else w1).
Proof.
  intros H Hg Hs Ht d1 Hch.
  destruct w as [d ti si gi out]; simpl in H, Hg, Hs, Ht, d1. subst si ti.
  unfold ADS7953_ProcessSamples. run_M. rewrite H, Hg. run_M.
  fold d1. rewrite Hch, Z.eqb_refl. run_M.
  rewrite (IsSamplingComplete_poll (mkWorld (stamp t1 d1) (t2 :: ts) _ _ _) t2 ts H eq_refl).
  unfold elapsed. simpl.
  destruct (60000 <=? _); reflexivity.
Qed.

(** *** Arrays *)

Lemma queue_get_array_set (qs : list Queue) (i j : Z) (q : Queue) :
  0 <= i < Z.of_nat (length qs) ->
  0 <= j ->
  queue_get (array_set qs i q) j = if j =? i then q else queue_get qs j.
Proof.
  intros Hi Hj. unfold queue_get, array_set.
  destruct (Z.leb_spec 0 i); [| lia]. destruct (Z.leb_spec 0 j); [| lia].
  destruct (Z.eqb_spec j i) as [-> | Hne].
  - rewrite list_lookup_insert_eq by lia. reflexivity.
  - rewrite list_lookup_insert_ne by lia. reflexivity.
Qed.

Lemma array_get_array_set (l : list Z) (i j : Z) (x : Z) :
  0 <= i < Z.of_nat (length l) ->
  0 <= j ->
  array_get (array_set l i x) j = if j =? i then x else array_get l j.
Proof.
  intros Hi Hj. unfold array_get, array_set.
  destruct (Z.leb_spec 0 i); [| lia]. destruct (Z.leb_spec 0 j); [| lia].
  destruct (Z.eqb_spec j i) as [-> | Hne].
  - rewrite list_lookup_insert_eq by lia. reflexivity.
  - rewrite list_lookup_insert_ne by lia. reflexivity.
Qed.

Lemma length_array_set {A} (l : list A) (i : Z) (x : A) :
  length (array_set l i x) = length l.
Proof. unfold array_set. destruct (0 <=? i); [apply length_insert | reflexivity]. Qed.

Lemma Forall_array_set {A} (P : A -> Prop) (l : list A) (i : Z) (x : A) :
  Forall P l -> P x -> Forall P (array_set l i x).
Proof.
  intros Hl Hx. unfold array_set.
  destruct (0 <=? i); [apply Forall_insert; assumption | exact Hl].
Qed.

Lemma queue_get_inv (qs : list Queue) (i : Z) :
  Forall Queue_inv qs ->
  0 <= i < Z.of_nat (length qs) ->
  Queue_inv (queue_get qs i).
Proof.
  intros Hall Hi. unfold queue_get. destruct (Z.leb_spec 0 i); [| lia].
  destruct (lookup_lt_is_Some_2 qs (Z.to_nat i)) as [q Hq]; [lia |].
  rewrite Hq. simpl. exact (Forall_lookup_1 _ _ _ _ Hall Hq).
Qed.

Lemma array_get_lookup (l : list Z) (i : nat) (x : Z) :
  l !! i = Some x -> array_get l (Z.of_nat i) = x.
Proof.
  intros H. unfold array_get. destruct (Z.leb_spec 0 (Z.of_nat i)); [| lia].
  rewrite Nat2Z.id, H. reflexivity.
Qed.

(** *** The ready line *)

Lemma skip_until_ready_count (levels : list Z) :
  (1 <= ready_count levels)%nat ->
  exists rest,
    skip_until_ready levels = Some rest /\
    ready_count rest = (ready_count levels - 1)%nat.
Proof.
  induction levels as [| level rest IH]; simpl; intros H; [lia |].
  destruct (level =? 0).
  - apply IH, H.
  - exists rest. split; [reflexivity | lia].
Qed.

(** *** One recording step on the driver state *)

Lemma next_channel_value (ch : Z) :
  0 <= ch < 16 ->
  to_uint8 (Z.rem (ch + 1) ADS7953_NUM_CHANNELS) = if ch =? 15 then 0 else ch + 1.
Proof.
  intros H. unfold to_uint8, ADS7953_NUM_CHANNELS.
  rewrite Z.rem_mod_nonneg by lia.
  destruct (Z.eqb_spec ch 15) as [-> | Hne]; [reflexivity |].
  rewrite (Z.mod_small (ch + 1) 16) by lia. apply Z.mod_small. lia.
Qed.

Lemma step_inv (result : Z) (d : Driver) :
  Driver_inv d ->
  Driver_inv (next_channel (store_average (store_result result d))).
Proof.
  intros (Hch & Hq & Ha & Hall). split; [| split; [| split]]; simpl.
  - rewrite next_channel_value by exact Hch. destruct (Z.eqb_spec (current_channel d) 15); lia.
  - rewrite length_array_set. exact Hq.
  - rewrite length_array_set. exact Ha.
  - apply Forall_array_set; [exact Hall |].
    apply Queue_Enqueue_inv, queue_get_inv; [exact Hall | lia].
Qed.

Lemma step_record (result : Z) (d : Driver) (c : Z) :
  Driver_inv d ->
  0 <= c < 16 ->
  let s := g_sample_set d in
  let s1 := g_sample_set (next_channel (store_average (store_result result d))) in
  let q1 := Queue_Enqueue (queue_get (channel_queues s) c) (Z.land result 0x0FFF) in
  queue_get (channel_queues s1) c =
    (if c =? current_channel d then q1 else queue_get (channel_queues s) c) /\
  array_get (channel_averages s1) c =
    (if c =? current_channel d then Queue_Average q1
     else array_get (channel_averages s) c) /\
  timestamp s1 = timestamp s.
Proof.
  intros (Hch & Hq & Ha & Hall) Hc. simpl.
  rewrite queue_get_array_set by lia.
  rewrite array_get_array_set by lia.
  rewrite queue_get_array_set by lia. rewrite Z.eqb_refl.
  destruct (Z.eqb_spec c (current_channel d)) as [-> | Hne]; repeat split; reflexivity.
Qed.

(** *** Consecutive steps *)

Lemma ProcessSamples_times_snoc (k : nat) (w : World) :
  ProcessSamples_times (S k) w =
  match ProcessSamples_times k w with
  | Some (_, w') => ADS7953_ProcessSamples w'
  | None => None
  end.
Proof.
  revert w. induction k as [| k IH]; intros w.
  - simpl. cbv [mbind M_bind mret M_ret].
    destruct (ADS7953_ProcessSamples w) as [[[] w1] |]; reflexivity.
  - change (ProcessSamples_times (S (S k)) w)
      with (match ADS7953_ProcessSamples w with
            | Some (_, w1) => ProcessSamples_times (S k) w1
            | None => None
            end).
    change (ProcessSamples_times (S k) w)
      with (match ADS7953_ProcessSamples w with
            | Some (_, w1) => ProcessSamples_times k w1
            | None => None
            end).
    destruct (ADS7953_ProcessSamples w) as [[[] w1] |]; [apply IH | reflexivity].
Qed.

Lemma replicate_snoc {A} (n : nat) (x : A) :
  replicate n x ++ [x] = replicate (S n) x.
Proof. induction n as [| n IH]; simpl; [reflexivity |]. rewrite IH. reflexivity. Qed.

Lemma elapsed_start (t : Z) (d d' : Driver) :
  g_start_time d' = g_start_time d -> elapsed t d' = elapsed t d.
Proof. intros H. unfold elapsed. rewrite H. reflexivity. Qed.

Lemma recorded_upto_step (k : nat) (rs : list Z) (s0 : ADS7953_SampleSet)
    (d : Driver) (r : Z) :
  Driver_inv d ->
  current_channel d = Z.of_nat k ->
  rs !! k = Some r ->
  recorded_upto (Z.of_nat k) rs s0 (g_sample_set d) ->
  recorded_upto (Z.of_nat (S k)) rs s0
    (g_sample_set (next_channel (store_average (store_result (to_uint16 r) d)))).
Proof.
  intros Hinv Hch Hr Hrec c Hc.
  destruct (step_record (to_uint16 r) d c Hinv Hc) as (Hq1 & Ha1 & _).
  destruct (Hrec c Hc) as (Hqk & Hak).
  cbv zeta in Hq1, Ha1. rewrite Hch in Hq1, Ha1.
  rewrite Ha1, Hq1. clear Ha1 Hq1.
  destruct (Z.eqb_spec c (Z.of_nat k)) as [-> | Hne].
  - rewrite Hqk.
    destruct (Z.ltb_spec (Z.of_nat k) (Z.of_nat k)); [lia |].
    destruct (Z.ltb_spec (Z.of_nat k) (Z.of_nat (S k))); [| lia].
    rewrite (array_get_lookup _ _ _ Hr). split; reflexivity.
  - rewrite Hak, !Hqk.
    destruct (Z.ltb_spec c (Z.of_nat k));
      destruct (Z.ltb_spec c (Z.of_nat (S k))); try lia; split; reflexivity.
Qed.

(** ** Round-robin cycling: claim C3 *)

Section RoundRobin.

Variable w : World.
Variables rs spi_rest ts timer_rest : list Z.
Variables t_stamp t_last : Z.

Hypothesis Hinv : Driver_inv (drv w).
Hypothesis Hch0 : current_channel (drv w) = 0.
Hypothesis Hopen : g_sampling_complete (drv w) = false.
Hypothesis Hrs : length rs = 16%nat.
Hypothesis Hspi : spi_in w = rs ++ spi_rest.
Hypothesis Hts : length ts = 15%nat.
Hypothesis Htimer : timer_in w = ts ++ t_stamp :: t_last :: timer_rest.
Hypothesis Hwindow : Forall (fun t => elapsed t (drv w) < 60000) ts.
Hypothesis Hready : (16 <= ready_count (gpio_in w))%nat.

(** The first [k <= 15] calls: each performs, none wraps, none completes. *)
Lemma round_robin_prefix (k : nat) :
  (k <= 15)%nat ->
  exists wk,
    ProcessSamples_times k w = Some (tt, wk) /\
    Driver_inv (drv wk) /\
    g_sampling_complete (drv wk) = false /\
    g_start_time (drv wk) = g_start_time (drv w) /\
    current_channel (drv wk) = Z.of_nat k /\
    spi_in wk = drop k rs ++ spi_rest /\
    timer_in wk = drop k ts ++ t_stamp :: t_last :: timer_rest /\
    (16 - k <= ready_count (gpio_in wk))%nat /\
    hw_out wk = hw_out w ++ replicate k (Ev_SPI_Transfer16 ADS7953_CS_PIN 0) /\
    timestamp (g_sample_set (drv wk)) = timestamp (g_sample_set (drv w)) /\
    recorded_upto (Z.of_nat k) rs (g_sample_set (drv w)) (g_sample_set (drv wk)).
Proof.
  induction k as [| k IH]; intros Hk.
  - exists w. split; [reflexivity |].
    split; [exact Hinv |]. split; [exact Hopen |]. split; [reflexivity |].
    split; [exact Hch0 |]. split; [exact Hspi |]. split; [exact Htimer |].
    split; [simpl; lia |]. split; [simpl; rewrite app_nil_r; reflexivity |].
    split; [reflexivity |].
    intros c Hc. destruct (Z.ltb_spec c (Z.of_nat 0)); [lia |].
    split; reflexivity.
  - destruct IH as (wk & Hrun & Hinvk & Hopenk & Hstart & Hchk & Hspik & Htimk
                    & Hrdy & Hout & Hstamp & Hrec); [lia |].
    destruct (lookup_lt_is_Some_2 rs k) as [r Hr]; [lia |].
    destruct (lookup_lt_is_Some_2 ts k) as [t Ht]; [lia |].
    destruct (skip_until_ready_count (gpio_in wk)) as (g' & Hg & Hcount); [lia |].
    rewrite (drop_S _ _ _ Hr) in Hspik. rewrite (drop_S _ _ _ Ht) in Htimk.
    simpl in Hspik, Htimk.
    pose (d1 := next_channel (store_average (store_result (to_uint16 r) (drv wk)))).
    assert (Hd1 : current_channel d1 = Z.of_nat (S k)).
    { unfold d1. simpl. rewrite next_channel_value by (destruct Hinvk; assumption).
      rewrite Hchk. destruct (Z.eqb_spec (Z.of_nat k) 15); lia. }
    assert (Hlt : elapsed t (drv wk) < 60000).
    { rewrite (elapsed_start _ _ _ Hstart).
      exact (Forall_lookup_1 _ _ _ _ Hwindow Ht). }
    rewrite ProcessSamples_times_snoc, Hrun.
    rewrite (ProcessSamples_step_nowrap wk g' r _ t _ Hopenk Hg Hspik Htimk)
      by (fold d1; lia).
    fold d1. destruct (Z.leb_spec 60000 (elapsed t (drv wk))); [lia |].
    eexists. split; [reflexivity |]. cbn [drv timer_in spi_in gpio_in hw_out].
    split; [apply step_inv, Hinvk |].
    split; [exact Hopenk |]. split; [exact Hstart |]. split; [exact Hd1 |].
    split; [reflexivity |]. split; [reflexivity |]. split; [lia |].
    split; [rewrite Hout, <- app_assoc; f_equal; apply replicate_snoc |].
    split; [exact Hstamp |].
    exact (recorded_upto_step k rs _ (drv wk) r Hinvk Hchk Hr Hrec).
Qed.


(** C3, amended.  Round-robin: from a session that is not complete and whose
    active channel is 0, as long as the 60 s window does not elapse during
    the first 15 of 16 consecutive calls (so that every call performs), the
    [k]-th call records into channel [k - 1] and no other: after [k] calls
    exactly the channels below [k] have been recorded into, once each and in
    ascending order, each call consuming one transfer word.  The timestamp is
    left alone by the first 15 calls and set by the 16th, when the index
    wraps back to 0. *)
Theorem round_robin_cycle (k : nat) :
  (k <= 16)%nat ->
  exists wk,
    ProcessSamples_times k w = Some (tt, wk) /\
    current_channel (drv wk) = Z.of_nat k mod 16 /\
    spi_in wk = drop k rs ++ spi_rest /\
    recorded_upto (Z.of_nat k) rs (g_sample_set (drv w)) (g_sample_set (drv wk)) /\
    timestamp (g_sample_set (drv wk)) =
      (if (k =? 16)%nat
       then to_uint32 (t_stamp - g_start_time (drv w))
       else timestamp (g_sample_set (drv w))).
Proof.
  intros Hk. destruct (decide (k = 16%nat)) as [-> | Hne].
  - destruct (round_robin_prefix 15) as
      (wk & Hrun & Hinvk & Hopenk & Hstart & Hchk & Hspik & Htimk
       & Hrdy & _ & _ & Hrec); [lia |].
    destruct (lookup_lt_is_Some_2 rs 15) as [r Hr]; [lia |].
    destruct (skip_until_ready_count (gpio_in wk)) as (g' & Hg & _); [lia |].
    rewrite (drop_S _ _ _ Hr) in Hspik. rewrite drop_ge in Htimk by lia.
    simpl in Hspik, Htimk.
    pose (d1 := next_channel (store_average (store_result (to_uint16 r) (drv wk)))).
    assert (Hd1 : current_channel d1 = 0).
    { unfold d1. simpl. rewrite next_channel_value by (destruct Hinvk; assumption).
      rewrite Hchk. reflexivity. }
    pose proof (recorded_upto_step 15 rs _ (drv wk) r Hinvk Hchk Hr Hrec) as Hrec16.
    rewrite ProcessSamples_times_snoc, Hrun.
    rewrite (ProcessSamples_step_wrap wk g' r _ t_stamp t_last _ Hopenk Hg Hspik Htimk)
      by exact Hd1.
    fold d1. cbv zeta.
    assert (Hts16 : to_uint32 (t_stamp - g_start_time d1)
                    = to_uint32 (t_stamp - g_start_time (drv w)))
      by (unfold d1; simpl; rewrite Hstart; reflexivity).
    destruct (60000 <=? elapsed t_last (drv wk));
      (eexists; split; [reflexivity |];
       cbn [drv timer_in spi_in gpio_in hw_out log_event set_drv];
       split; [exact Hd1 |]; split; [reflexivity |];
       split; [exact Hrec16 | exact Hts16]).
  - destruct (round_robin_prefix k) as
      (wk & Hrun & _ & _ & _ & Hchk & Hspik & _ & _ & _ & Hstamp & Hrec); [lia |].
    exists wk. split; [exact Hrun |].
    split; [rewrite Hchk, Z.mod_small by lia; reflexivity |].
    split; [exact Hspik |]. split; [exact Hrec |].
    destruct (Nat.eqb_spec k 16); [contradiction | exact Hstamp].
Qed.

End RoundRobin.

Lemma fresh_driver_inv : Driver_inv fresh_driver.
Proof.
  split; [simpl; lia |]. split; [reflexivity |]. split; [reflexivity |].
  change (Forall Queue_inv (replicate 16 (Queue_Init zero_queue))).
  apply Forall_replicate, Queue_Init_inv. reflexivity.
Qed.

Lemma round_robin_cycle_witness :
  exists wk,
    ProcessSamples_times 16
      (demo_world [10; 20; 30; 40; 50; 60; 70; 80; 90; 100; 110; 120; 130; 140;
                   150; 160; 170]) = Some (tt, wk) /\
    current_channel (drv wk) = 0 /\
    spi_in wk = [] /\
    recorded_upto 16 demo_words fresh_sample_set (g_sample_set (drv wk)) /\
    timestamp (g_sample_set (drv wk)) = 160.
Proof.
  apply (round_robin_cycle
           (demo_world [10; 20; 30; 40; 50; 60; 70; 80; 90; 100; 110; 120; 130;
                        140; 150; 160; 170])
           demo_words []
           [10; 20; 30; 40; 50; 60; 70; 80; 90; 100; 110; 120; 130; 140; 150]
           [] 160 170).
  - exact fresh_driver_inv.
  - reflexivity.
  - reflexivity.
  - reflexivity.
  - reflexivity.
  - reflexivity.
  - reflexivity.
  - repeat constructor.
  - vm_compute. lia.
  - lia.
Defined.

(** C3, as stated, fails: when the window elapses during the first of 16
    calls, that call records channel 0 and completes the session, and the 15
    calls that follow do nothing.  Channels 1 to 15 are never recorded into
    and the timestamp is never set. *)
Lemma round_robin_interrupted :
  g_sampling_complete (drv (demo_world [60000])) = false /\
  current_channel (drv (demo_world [60000])) = 0 /\
  observe (fun w => current_channel (drv w))
          (ProcessSamples_times 16 (demo_world [60000])) = Some 1 /\
  observe (fun w => Queue_contents (queue_of 0 w))
          (ProcessSamples_times 16 (demo_world [60000])) = Some [0x0123] /\
  observe (fun w => Queue_contents <$> drop 1 (channel_queues (g_sample_set (drv w))))
          (ProcessSamples_times 16 (demo_world [60000])) = Some (replicate 15 []) /\
  observe (fun w => timestamp (g_sample_set (drv w)))
          (ProcessSamples_times 16 (demo_world [60000])) = Some 0 /\
  observe (fun w => length (spi_in w))
          (ProcessSamples_times 16 (demo_world [60000])) = Some 15%nat /\
  ~ (exists wk,
       ProcessSamples_times 16 (demo_world [60000]) = Some (tt, wk) /\
       recorded_upto 16 demo_words fresh_sample_set (g_sample_set (drv wk))).
Proof.
  repeat (split; [vm_compute; reflexivity |]).
  intros (wk & Hrun & Hrec).
  assert (Hq : observe (fun w => size (queue_of 1 w))
                 (ProcessSamples_times 16 (demo_world [60000])) = Some 0)
    by (vm_compute; reflexivity).
  rewrite Hrun in Hq. simpl in Hq. injection Hq as Hq.
  destruct (Hrec 1) as (Hq1 & _); [lia |].
  unfold queue_of in Hq. rewrite Hq1 in Hq. vm_compute in Hq. discriminate Hq.
Qed.

(** *** The invariant holds in every state the driver reaches *)

Lemma Init_eq (config : ADS7953_Config) (w : World) (a : Z) (spi' : list Z) :
  spi_in w = a :: spi' ->
  ADS7953_Init config w =
  Some (tt,
        {| drv := set_g_sample_set fresh_sample_set (drv w);
           timer_in := timer_in w;
           spi_in := spi';
           gpio_in := gpio_in w;
           hw_out := hw_out w ++
             [Ev_SPI_Init (spi_channel config) (spi_speed config);
              Ev_GPIO_SetOutput ADS7953_CS_PIN;
              Ev_GPIO_SetInput ADS7953_BUSY_PIN;
              Ev_GPIO_SetHigh ADS7953_CS_PIN;
              Ev_GPIO_SetLow ADS7953_CS_PIN;
              Ev_SPI_Transfer16 (spi_channel config) 0x3800;
              Ev_GPIO_SetHigh ADS7953_CS_PIN] |}).
Proof.
  intros Hs. destruct w as [d ti si gi out]; simpl in Hs. subst si.
  unfold ADS7953_Init. run_M. rewrite <- !app_assoc. reflexivity.
Qed.

Lemma Init_inv (config : ADS7953_Config) (w w' : World) :
  0 <= current_channel (drv w) < 16 ->
  ADS7953_Init config w = Some (tt, w') ->
  Driver_inv (drv w').
Proof.
  intros Hch Hrun. destruct (spi_in w) as [| a spi'] eqn:Hs.
  - destruct w as [d ti si gi out]; simpl in Hs. subst si.
    revert Hrun. unfold ADS7953_Init. run_M. discriminate.
  - rewrite (Init_eq config w a spi' Hs) in Hrun. injection Hrun as <-.
    split; [exact Hch |]. apply fresh_driver_inv.
Qed.

Lemma IsSamplingComplete_drv (w w1 : World) (b : bool) :
  ADS7953_IsSamplingComplete w = Some (b, w1) ->
  g_sample_set (drv w1) = g_sample_set (drv w) /\
  current_channel (drv w1) = current_channel (drv w) /\
  g_start_time (drv w1) = g_start_time (drv w).
Proof.
  intros Hrun. destruct (g_sampling_complete (drv w)) eqn:Hflag.
  - rewrite IsSamplingComplete_done in Hrun by exact Hflag.
    injection Hrun as <- <-. repeat split.
  - destruct (timer_in w) as [| t ts] eqn:Ht.
    + destruct w as [d ti si gi out]; simpl in Hflag, Ht. subst ti.
      unfold ADS7953_IsSamplingComplete in Hrun. revert Hrun. run_M.
      rewrite Hflag. run_M. discriminate.
    + rewrite (IsSamplingComplete_poll w t ts Hflag Ht) in Hrun.
      destruct (60000 <=? elapsed t (drv w)); injection Hrun as <- <-;
        repeat split.
Qed.

Lemma StartSampling_inv (w w' : World) :
  Driver_inv (drv w) ->
  ADS7953_StartSampling w = Some (tt, w') ->
  Driver_inv (drv w').
Proof.
  intros Hinv Hrun. destruct w as [d ti si gi out].
  revert Hrun. unfold ADS7953_StartSampling. run_M.
  destruct ti as [| t ts]; [discriminate |].
  destruct si as [| a [| b spi']]; try discriminate.
  intros [= <-]. exact Hinv.
Qed.

Lemma ProcessSamples_inv (w w' : World) :
  Driver_inv (drv w) ->
  ADS7953_ProcessSamples w = Some (tt, w') ->
  Driver_inv (drv w').
Proof.
  intros Hinv Hrun. destruct (g_sampling_complete (drv w)) eqn:Hflag.
  - rewrite ProcessSamples_done in Hrun by exact Hflag.
    injection Hrun as <-. exact Hinv.
  - destruct w as [d ti si gi out]; simpl in Hinv, Hflag.
    revert Hrun. unfold ADS7953_ProcessSamples. run_M. rewrite Hflag. run_M.
    destruct (skip_until_ready gi) as [g' |]; [| discriminate].
    destruct si as [| rx spi']; [discriminate |].
    pose proof (step_inv (to_uint16 rx) d Hinv) as Hinv1.
    set (d1 := next_channel (store_average (store_result (to_uint16 rx) d))) in *.
    destruct (current_channel d1 =? 0);
      [destruct ti as [| t1 ts]; [discriminate |] |];
      (match goal with
       | |- context [ADS7953_IsSamplingComplete ?w1] =>
           destruct (ADS7953_IsSamplingComplete w1) as [[b w2] |] eqn:Hpoll;
             [| discriminate]
       end;
       intros [= Hw]; subst w';
       destruct (IsSamplingComplete_drv _ _ _ Hpoll) as (Hs & Hc & _);
       destruct Hinv1 as (Hch1 & Hss1); split;
       [change (0 <= current_channel (drv w2) < 16); rewrite Hc; exact Hch1
       |change (SampleSet_inv (g_sample_set (drv w2))); rewrite Hs; exact Hss1]).
Qed.

(** ** Sessions: claims C1, C2, C4, C5, C9, C10 *)

Lemma IsSamplingComplete_flag w b w1 :
  ADS7953_IsSamplingComplete w = Some (b, w1) ->
  g_sampling_complete (drv w1) = b.
Proof.
  intros Hrun. destruct (g_sampling_complete (drv w)) eqn:Hflag.
  - rewrite IsSamplingComplete_done in Hrun by exact Hflag.
    injection Hrun as <- <-. exact Hflag.
  - destruct (timer_in w) as [| t ts] eqn:Ht.
    + destruct w as [d ti si gi out]; simpl in Hflag, Ht. subst ti.
      unfold ADS7953_IsSamplingComplete in Hrun. revert Hrun. run_M.
      rewrite Hflag. run_M. discriminate.
    + rewrite (IsSamplingComplete_poll w t ts Hflag Ht) in Hrun.
      destruct (60000 <=? elapsed t (drv w)); injection Hrun as <- <-;
        [reflexivity | exact Hflag].
Qed.

Lemma run_call_complete (c : Call) (w : World) :
  g_sampling_complete (drv w) = true ->
  run_call c w = Some (seen_when_complete (g_sample_set (drv w)) c, w).
Proof.
  intros Hflag. destruct c as [| | results]; simpl; cbv [mbind M_bind mret M_ret].
  - rewrite IsSamplingComplete_done by exact Hflag. reflexivity.
  - rewrite ProcessSamples_done by exact Hflag. reflexivity.
  - rewrite GetResults_eq, Hflag. reflexivity.
Qed.

(** C1.  The code does not do what the claim says: [ADS7953_StartSampling]
    clears the completion flag and records the start time, but it cannot
    reach [current_channel], a [static] local of [ADS7953_ProcessSamples].
    Here the first session is completed by its first step (the clock reads
    60000 at the check), which leaves the index at 1; the second session then
    starts with the index still 1, and its first step records into channel 1
    and leaves channel 0 as it was. *)
Theorem StartSampling_keeps_channel :
  let boot := ADS7953_Init demo_config;; ADS7953_StartSampling in
  let session1 := boot;; ADS7953_ProcessSamples in
  let restart := session1;; ADS7953_StartSampling in
  let session2 := restart;; ADS7953_ProcessSamples in
  let w0 := power_on [0; 60000; 60010; 60020] [0; 0; 0; 0x0111; 0; 0; 0x0222] in
  observe (fun w => drv w) (boot w0) = Some fresh_driver /\
  observe (fun w => (g_sampling_complete (drv w), current_channel (drv w)))
          (session1 w0) = Some (true, 1) /\
  observe (fun w => (g_sampling_complete (drv w), g_start_time (drv w),
                     current_channel (drv w)))
          (restart w0) = Some (false, 60010, 1) /\
  observe (fun w => Queue_contents (queue_of 0 w)) (session1 w0) = Some [0x0111] /\
  observe (fun w => Queue_contents (queue_of 0 w)) (session2 w0) = Some [0x0111] /\
  observe (fun w => Queue_contents (queue_of 1 w)) (session2 w0) = Some [0x0222].
Proof. vm_compute. repeat split. Qed.

(** C2, as stated, fails: the C function returns [void], and what it hands
    back, the destination, can be the same whether or not the session is
    complete.  No indicator computed from it tells the two apart. *)
Lemma GetResults_no_indicator :
  let busy := demo_world [] in
  let done := set_drv (set_g_sampling_complete true fresh_driver) (demo_world []) in
  observe (fun w => g_sampling_complete (drv w))
          (ADS7953_GetResults fresh_sample_set busy) = Some false /\
  observe (fun w => g_sampling_complete (drv w))
          (ADS7953_GetResults fresh_sample_set done) = Some true /\
  fst <$> ADS7953_GetResults fresh_sample_set busy = Some fresh_sample_set /\
  fst <$> ADS7953_GetResults fresh_sample_set done = Some fresh_sample_set /\
  ~ (exists indicator : ADS7953_SampleSet -> bool,
       forall results w results' w',
         ADS7953_GetResults results w = Some (results', w') ->
         indicator results' = g_sampling_complete (drv w)).
Proof.
  repeat (split; [reflexivity |]).
  intros (indicator & H).
  pose proof (H fresh_sample_set (demo_world []) _ _ eq_refl) as Hbusy.
  pose proof (H fresh_sample_set
                (set_drv (set_g_sampling_complete true fresh_driver) (demo_world []))
                _ _ eq_refl) as Hdone.
  simpl in Hbusy, Hdone. congruence.
Qed.

(** C2, amended.  When a snapshot is requested before the session is
    complete, nothing is written into the caller's destination: it is left
    as it was, and so is the driver.  The call returns no value; what tells
    the caller is the flag [ADS7953_IsSamplingComplete] returned before the
    call: false, nothing is written; true, the whole sample set is copied. *)
Theorem GetResults_gated (w w1 : World) (b : bool) (results : ADS7953_SampleSet) :
  ADS7953_IsSamplingComplete w = Some (b, w1) ->
  ADS7953_GetResults results w1 =
  Some (if b then g_sample_set (drv w1) else results, w1).
Proof.
  intros Hpoll. rewrite GetResults_eq.
  rewrite (IsSamplingComplete_flag _ _ _ Hpoll). reflexivity.
Qed.

Lemma GetResults_gated_witness :
  ADS7953_GetResults zero_sample_set (set_timer_in [] (demo_world [59999])) =
  Some (zero_sample_set, set_timer_in [] (demo_world [59999])).
Proof.
  apply (GetResults_gated (demo_world [59999]) _ false zero_sample_set).
  reflexivity.
Defined.

(** C4.  Monotonic completion: once [ADS7953_IsSamplingComplete] has returned
    true, then through any sequence of polls, steps and read-outs of the same
    session every poll returns true again, and every call, each
    [ADS7953_ProcessSamples] among them, leaves the whole world as it is: no
    transfer is logged, no reading is consumed, and no queue, average or
    timestamp changes. *)
Theorem completion_monotonic (w w1 : World) (cs : list Call) :
  ADS7953_IsSamplingComplete w = Some (true, w1) ->
  ADS7953_IsSamplingComplete w1 = Some (true, w1) /\
  ADS7953_ProcessSamples w1 = Some (tt, w1) /\
  run_calls cs w1 = Some (seen_when_complete (g_sample_set (drv w1)) <$> cs, w1).
Proof.
  intros Hpoll. pose proof (IsSamplingComplete_flag _ _ _ Hpoll) as Hflag.
  split; [apply IsSamplingComplete_done, Hflag |].
  split; [apply ProcessSamples_done, Hflag |].
  induction cs as [| c cs IH]; [reflexivity |].
  simpl. cbv [mbind M_bind mret M_ret] in *.
  rewrite run_call_complete by exact Hflag. rewrite IH. reflexivity.
Qed.

Lemma completion_monotonic_witness :
  exists w1,
    ADS7953_IsSamplingComplete (demo_world [60000; 60001]) = Some (true, w1) /\
    ADS7953_IsSamplingComplete w1 = Some (true, w1) /\
    ADS7953_ProcessSamples w1 = Some (tt, w1) /\
    run_calls [Call_ProcessSamples; Call_IsSamplingComplete;
               Call_GetResults zero_sample_set; Call_ProcessSamples] w1 =
    Some ([Seen_nothing; Seen_flag true; Seen_results fresh_sample_set; Seen_nothing],
          w1).
Proof.
  eexists. split; [reflexivity |].
  apply (completion_monotonic (demo_world [60000; 60001])). reflexivity.
Defined.

(** C5.  Deadline: after [ADS7953_StartSampling] has recorded the start at
    clock 0, [ADS7953_IsSamplingComplete] returns false when the clock reads
    59999 and true when it reads 60000 or anything later (the clock is a
    32-bit counter); in general it returns whether the reading has reached
    60000. *)
Theorem deadline_60000 (w : World) (a b : Z) (spi_rest timer_rest : list Z) :
  spi_in w = a :: b :: spi_rest ->
  let poll_at t :=
    fst <$> (ADS7953_StartSampling;; ADS7953_IsSamplingComplete)
              (set_timer_in (0 :: t :: timer_rest) w) in
  poll_at 59999 = Some false /\
  poll_at 60000 = Some true /\
  (forall t, 60000 <= t < 4294967296 -> poll_at t = Some true) /\
  (forall t, 0 <= t < 60000 -> poll_at t = Some false).
Proof.
  intros Hspi poll_at.
  assert (G : forall t, 0 <= t < 4294967296 -> poll_at t = Some (60000 <=? t)).
  { intros t Ht. unfold poll_at. cbv [mbind M_bind].
    rewrite (StartSampling_eq _ 0 (t :: timer_rest) a b spi_rest)
      by (destruct w; first [reflexivity | exact Hspi]).
    erewrite IsSamplingComplete_poll by reflexivity.
    assert (E : elapsed t
                  (set_g_start_time (to_uint32 0)
                     (set_g_sampling_complete false (drv (set_timer_in (0 :: t :: timer_rest) w))))
                = t).
    { unfold elapsed. simpl. change (to_uint32 0) with 0.
      rewrite Z.sub_0_r, !to_uint32_id; [reflexivity | lia |].
      rewrite to_uint32_id; lia. }
    cbn [drv] in *. rewrite E. destruct (60000 <=? t); reflexivity. }
  split; [apply (G 59999); lia |]. split; [apply (G 60000); lia |].
  split; intros t Ht; rewrite G by lia.
  - destruct (Z.leb_spec 60000 t); [reflexivity | lia].
  - destruct (Z.leb_spec 60000 t); [lia | reflexivity].
Qed.

Lemma deadline_60000_witness :
  fst <$> (ADS7953_StartSampling;; ADS7953_IsSamplingComplete)
            (set_timer_in [0; 59999] (demo_world [])) = Some false /\
  fst <$> (ADS7953_StartSampling;; ADS7953_IsSamplingComplete)
            (set_timer_in [0; 60000] (demo_world [])) = Some true.
Proof.
  destruct (deadline_60000 (demo_world []) 0xF123 101 (drop 2 demo_words) []
              eq_refl) as (H1 & H2 & _).
  split; [exact H1 | exact H2].
Defined.

Lemma land_0FFF (z : Z) : Z.land z 0x0FFF = z mod 4096.
Proof. change 0x0FFF with (Z.ones 12). rewrite Z.land_ones by lia. reflexivity. Qed.

Lemma Queue_Enqueue_last (q : Queue) (v : Z) :
  Queue_inv q ->
  last (Queue_contents (Queue_Enqueue q v)) = Some (to_uint16 v).
Proof.
  intros Hinv. rewrite Queue_Enqueue_contents by exact Hinv. apply last_snoc.
Qed.

(** C9.  Masking: a step that performs stores, as the newest element of the
    active channel's queue, the low 12 bits of the 16-bit word the transfer
    returned, and nothing of its upper four bits. *)
Theorem ProcessSamples_masks (w : World) (rx t1 t2 : Z) (spi_rest timer_rest : list Z) :
  Driver_inv (drv w) ->
  g_sampling_complete (drv w) = false ->
  (1 <= ready_count (gpio_in w))%nat ->
  is_uint16 rx ->
  spi_in w = rx :: spi_rest ->
  timer_in w = t1 :: t2 :: timer_rest ->
  exists w',
    ADS7953_ProcessSamples w = Some (tt, w') /\
    queue_of (current_channel (drv w)) w' =
      Queue_Enqueue (queue_of (current_channel (drv w)) w) (Z.land rx 0x0FFF) /\
    last (Queue_contents (queue_of (current_channel (drv w)) w')) =
      Some (Z.land rx 0x0FFF) /\
    Z.land rx 0x0FFF = rx mod 4096.
Proof.
  intros Hinv Hopen Hready Hrx Hspi Htimer.
  destruct (skip_until_ready_count _ Hready) as (g' & Hg & _).
  pose (d1 := next_channel (store_average (store_result (to_uint16 rx) (drv w)))).
  assert (Hch : 0 <= current_channel (drv w) < 16) by (destruct Hinv; assumption).
  destruct (step_record (to_uint16 rx) (drv w) _ Hinv Hch) as (Hq & _).
  cbv zeta in Hq. fold d1 in Hq.
  rewrite Z.eqb_refl, (to_uint16_id rx Hrx) in Hq.
  assert (Hlast : last (Queue_contents (queue_get (channel_queues (g_sample_set d1))
                                          (current_channel (drv w))))
                  = Some (Z.land rx 0x0FFF)).
  { rewrite Hq, Queue_Enqueue_last.
    - rewrite to_uint16_id; [reflexivity |].
      rewrite land_0FFF. unfold is_uint16.
      pose proof (Z.mod_pos_bound rx 4096). lia.
    - destruct Hinv as (_ & Hlen & _ & Hall).
      apply queue_get_inv; [exact Hall | lia]. }
  destruct (Z.eq_dec (current_channel d1) 0) as [Hwrap | Hnowrap].
  - rewrite (ProcessSamples_step_wrap w g' rx _ t1 t2 _ Hopen Hg Hspi Htimer)
      by exact Hwrap.
    fold d1. cbv zeta.
    destruct (60000 <=? elapsed t2 (drv w));
      (eexists; split; [reflexivity |]; unfold queue_of;
       cbn [drv log_event set_drv];
       split; [exact Hq |]; split; [exact Hlast | apply land_0FFF]).
  - rewrite (ProcessSamples_step_nowrap w g' rx _ t1 _ Hopen Hg Hspi Htimer)
      by exact Hnowrap.
    fold d1. cbv zeta.
    destruct (60000 <=? elapsed t1 (drv w));
      (eexists; split; [reflexivity |]; unfold queue_of;
       cbn [drv log_event set_drv];
       split; [exact Hq |]; split; [exact Hlast | apply land_0FFF]).
Qed.

Lemma ProcessSamples_masks_witness :
  exists w',
    ADS7953_ProcessSamples (demo_world [10; 20]) = Some (tt, w') /\
    queue_of 0 w' = Queue_Enqueue (Queue_Init zero_queue) 0x0123 /\
    last (Queue_contents (queue_of 0 w')) = Some 0x0123 /\
    0x0123 = 0xF123 mod 4096.
Proof.
  apply (ProcessSamples_masks (demo_world [10; 20]) 0xF123 10 20
           (drop 1 demo_words) []).
  - exact fresh_driver_inv.
  - reflexivity.
  - vm_compute. lia.
  - unfold is_uint16. lia.
  - reflexivity.
  - reflexivity.
Defined.

(** C10.  Frame: [ADS7953_GetResults] always returns, and it leaves the whole
    world as it found it: every queue, every average, the timestamp, the
    completion flag, the start time, the active channel, and the hardware.
    The destination is overwritten with the sample set when the completion
    flag is set, and is left exactly as it was when the flag is clear. *)
Theorem GetResults_frame (w : World) (results : ADS7953_SampleSet) :
  exists results',
    ADS7953_GetResults results w = Some (results', w) /\
    results' = (if g_sampling_complete (drv w) then g_sample_set (drv w) else results).
Proof.
  eexists. split; [apply GetResults_eq | reflexivity].
Qed.

(** ** Further properties of the queue *)

Lemma Queue_Dequeue_spec (q : Queue) :
  Queue_inv q ->
  fst (Queue_Dequeue q) = default 0 (head (Queue_contents q)) /\
  Queue_contents (snd (Queue_Dequeue q)) = tail (Queue_contents q) /\
  Queue_inv (snd (Queue_Dequeue q)).
Proof.
  intros H. queue_cases q H;
    (split; [reflexivity | split; [reflexivity |]]);
    unfold Queue_inv, Queue_Dequeue, QUEUE_SIZE; cbn;
    repeat split; (reflexivity || (vm_compute; congruence)).
Qed.

Lemma Queue_drain_all (n : nat) (q : Queue) :
  Queue_inv q ->
  length (Queue_contents q) = n ->
  fst (Queue_drain n q) = Queue_contents q /\
  Queue_contents (snd (Queue_drain n q)) = [] /\
  Queue_inv (snd (Queue_drain n q)).
Proof.
  revert q. induction n as [| n IH]; intros q Hinv Hlen.
  - simpl. destruct (Queue_contents q); [| discriminate Hlen].
    split; [reflexivity |]. split; [reflexivity | exact Hinv].
  - destruct (Queue_Dequeue_spec q Hinv) as (Hv & Hc & Hinv1).
    destruct (Queue_contents q) as [| x l] eqn:Hq; [discriminate Hlen |].
    simpl in Hv, Hc, Hlen.
    destruct (IH (snd (Queue_Dequeue q)) Hinv1) as (Hvs & He & Hinv2);
      [rewrite Hc; lia |].
    cbn [Queue_drain fst snd]. rewrite Hv, Hvs, Hc.
    split; [reflexivity |]. split; assumption.
Qed.

(** X1.  [Queue_Dequeue] is first-in first-out: on a queue that obeys the
    invariant it returns the oldest element held and leaves the others in
    order; on an empty queue it returns 0 and leaves the queue empty.  The
    invariant is kept. *)
Theorem Queue_Dequeue_fifo (q : Queue) :
  Queue_inv q ->
  fst (Queue_Dequeue q) = default 0 (head (Queue_contents q)) /\
  Queue_contents (snd (Queue_Dequeue q)) = tail (Queue_contents q) /\
  size (snd (Queue_Dequeue q)) = Z.of_nat (length (tail (Queue_contents q))) /\
  Queue_inv (snd (Queue_Dequeue q)).
Proof.
  intros Hinv. destruct (Queue_Dequeue_spec q Hinv) as (Hv & Hc & Hinv1).
  split; [exact Hv |]. split; [exact Hc |]. split; [| exact Hinv1].
  rewrite (Queue_size_contents _ Hinv1), Hc. reflexivity.
Qed.

Lemma Queue_Dequeue_fifo_witness :
  let q := fold_left Queue_Enqueue [5; 6; 7] (Queue_Init zero_queue) in
  fst (Queue_Dequeue q) = 5 /\
  Queue_contents (snd (Queue_Dequeue q)) = [6; 7] /\
  size (snd (Queue_Dequeue q)) = 2 /\
  Queue_inv (snd (Queue_Dequeue q)).
Proof.
  apply (Queue_Dequeue_fifo (fold_left Queue_Enqueue [5; 6; 7] (Queue_Init zero_queue))).
  apply Queue_fold_inv, Queue_Init_inv. reflexivity.
Defined.

(** X2.  Round trip: whatever has been enqueued into a freshly initialised
    queue, dequeuing as many times as the queue holds elements returns the
    last (at most four) values enqueued, oldest first, and leaves the queue
    empty; one more dequeue returns 0. *)
Theorem Queue_drain_roundtrip (q0 : Queue) (vs : list Z) :
  length (data q0) = 4%nat ->
  Forall is_uint16 vs ->
  let q := fold_left Queue_Enqueue vs (Queue_Init q0) in
  let n := length (lastn 4 vs) in
  fst (Queue_drain n q) = lastn 4 vs /\
  Queue_contents (snd (Queue_drain n q)) = [] /\
  fst (Queue_Dequeue (snd (Queue_drain n q))) = 0.
Proof.
  intros Hlen Hvs q n.
  assert (Hinv : Queue_inv q) by (apply Queue_fold_inv, Queue_Init_inv, Hlen).
  assert (Hc : Queue_contents q = lastn 4 vs).
  { subst q. rewrite Queue_fold_contents by exact Hlen.
    rewrite fmap_to_uint16_id by exact Hvs. reflexivity. }
  destruct (Queue_drain_all n q Hinv) as (Hd & He & Hinv');
    [subst n; rewrite Hc; reflexivity |].
  split; [rewrite Hd; exact Hc |]. split; [exact He |].
  destruct (Queue_Dequeue_spec _ Hinv') as (Hv & _). rewrite Hv, He. reflexivity.
Qed.

Lemma Queue_drain_roundtrip_witness :
  let q := fold_left Queue_Enqueue [1; 2; 3; 4; 5; 6] (Queue_Init zero_queue) in
  fst (Queue_drain 4 q) = [3; 4; 5; 6] /\
  Queue_contents (snd (Queue_drain 4 q)) = [] /\
  fst (Queue_Dequeue (snd (Queue_drain 4 q))) = 0.
Proof.
  apply (Queue_drain_roundtrip zero_queue [1; 2; 3; 4; 5; 6]).
  - reflexivity.
  - repeat constructor; unfold is_uint16; lia.
Defined.

(** X3.  [Queue_Init] is needed: on a queue that is only zeroed ([rear] 0
    instead of -1) the first values enqueued are stored from index 1 on while
    the average is read from index 0 on.  With one to three values enqueued,
    the elements averaged are a stale 0 followed by all values but the newest;
    the newest value does not count. *)
Theorem Queue_zero_misses_newest (vs : list Z) :
  (1 <= length vs <= 3)%nat ->
  let q := fold_left Queue_Enqueue vs zero_queue in
  ~ Queue_inv zero_queue /\
  Queue_contents q = 0 :: (to_uint16 <$> take (length vs - 1) vs) /\
  forall v, Queue_Average (Queue_Enqueue zero_queue v) = 0.
Proof.
  intros Hlen q. split; [| split].
  - intros (_ & _ & _ & _ & Hrel). vm_compute in Hrel. discriminate Hrel.
  - subst q. destruct vs as [| a [| b [| c [| ? ?]]]]; simpl in Hlen; try lia;
      reflexivity.
  - intros v. reflexivity.
Qed.

Lemma Queue_zero_misses_newest_witness :
  let q := fold_left Queue_Enqueue [100; 200] zero_queue in
  ~ Queue_inv zero_queue /\
  Queue_contents q = [0; 100] /\
  forall v, Queue_Average (Queue_Enqueue zero_queue v) = 0.
Proof.
  apply (Queue_zero_misses_newest [100; 200]). simpl. lia.
Defined.

(** ** Further properties of the driver *)


Lemma cs_level_snoc (log : list HwEvent) (e : HwEvent) :
  cs_level (log ++ [e]) =
  match e with
  | Ev_GPIO_SetHigh pin => if pin =? ADS7953_CS_PIN then Some true else cs_level log
  | Ev_GPIO_SetLow pin => if pin =? ADS7953_CS_PIN then Some false else cs_level log
  | _ => cs_level log
  end.
Proof. unfold cs_level. rewrite fold_left_app. reflexivity. Qed.

(** What a step that performs does to the world, whichever channel is
    active. *)
Lemma ProcessSamples_performs (w : World) (rx t1 t2 : Z) (spi_rest timer_rest : list Z) :
  Driver_inv (drv w) ->
  g_sampling_complete (drv w) = false ->
  (1 <= ready_count (gpio_in w))%nat ->
  spi_in w = rx :: spi_rest ->
  timer_in w = t1 :: t2 :: timer_rest ->
  let d1 := next_channel (store_average (store_result (to_uint16 rx) (drv w))) in
  let wraps := current_channel (drv w) =? 15 in
  let due := 60000 <=? elapsed (if wraps then t2 else t1) (drv w) in
  exists w',
    ADS7953_ProcessSamples w = Some (tt, w') /\
    channel_queues (g_sample_set (drv w')) = channel_queues (g_sample_set d1) /\
    channel_averages (g_sample_set (drv w')) = channel_averages (g_sample_set d1) /\
    timestamp (g_sample_set (drv w')) =
      (if wraps then to_uint32 (t1 - g_start_time (drv w))
       else timestamp (g_sample_set (drv w))) /\
    current_channel (drv w') = (current_channel (drv w) + 1) mod 16 /\
    g_start_time (drv w') = g_start_time (drv w) /\
    g_sampling_complete (drv w') = due /\
    spi_in w' = spi_rest /\
    timer_in w' = (if wraps then timer_rest else t2 :: timer_rest) /\
    hw_out w' = (hw_out w ++ [Ev_SPI_Transfer16 ADS7953_CS_PIN 0])
                  ++ (if due then [Ev_GPIO_SetHigh ADS7953_CS_PIN] else []).
Proof.
  intros Hinv Hopen Hready Hspi Htimer d1 wraps due.
  destruct (skip_until_ready_count _ Hready) as (g' & Hg & _).
  assert (Hch : 0 <= current_channel (drv w) < 16) by (destruct Hinv; assumption).
  assert (Hd1 : current_channel d1 = if wraps then 0 else current_channel (drv w) + 1)
    by (unfold d1, wraps; simpl; apply next_channel_value, Hch).
  assert (Hmod : (current_channel (drv w) + 1) mod 16
                 = if wraps then 0 else current_channel (drv w) + 1).
  { unfold wraps. destruct (Z.eqb_spec (current_channel (drv w)) 15) as [-> | Hne];
      [reflexivity | apply Z.mod_small; lia]. }
  subst due. destruct wraps eqn:Hw.
  - rewrite (ProcessSamples_step_wrap w g' rx _ t1 t2 _ Hopen Hg Hspi Htimer)
      by exact Hd1.
    fold d1. cbv zeta.
    destruct (60000 <=? elapsed t2 (drv w));
      (eexists; split; [reflexivity |];
       cbn [drv timer_in spi_in gpio_in hw_out log_event set_drv];
       rewrite ?app_nil_r, Hmod; repeat split; exact Hd1 || exact Hopen).
  - rewrite (ProcessSamples_step_nowrap w g' rx _ t1 _ Hopen Hg Hspi Htimer)
      by (fold d1; rewrite Hd1; unfold wraps in Hw; lia).
    fold d1. cbv zeta.
    destruct (60000 <=? elapsed t1 (drv w));
      (eexists; split; [reflexivity |];
       cbn [drv timer_in spi_in gpio_in hw_out log_event set_drv];
       rewrite ?app_nil_r, Hmod; repeat split; exact Hd1 || exact Hopen).
Qed.

Lemma is_sample_land (z : Z) : is_sample (Z.land z 0x0FFF).
Proof.
  rewrite land_0FFF. unfold is_sample.
  pose proof (Z.mod_pos_bound z 4096). lia.
Qed.

Lemma is_sample_uint16 (l : list Z) : Forall is_sample l -> Forall is_uint16 l.
Proof.
  intros H. eapply Forall_impl; [exact H |].
  unfold is_sample, is_uint16. intros; simpl; lia.
Qed.

Lemma Forall_tail_of {A} (P : A -> Prop) (l : list A) :
  Forall P l -> Forall P (tail l).
Proof. intros H. destruct H; [constructor | assumption]. Qed.

Lemma Queue_Enqueue_lastn (q : Queue) (v : Z) :
  Queue_inv q ->
  Queue_contents (Queue_Enqueue q v) = lastn 4 (Queue_contents q ++ [to_uint16 v]).
Proof.
  intros Hinv. rewrite Queue_Enqueue_contents by exact Hinv.
  pose proof (Queue_size_contents q Hinv) as Hsz.
  assert (Hs : 0 <= size q <= 4) by (destruct Hinv as (_ & _ & _ & ? & _); lia).
  unfold lastn, QUEUE_SIZE. rewrite length_app. simpl length.
  destruct (Z.eqb_spec (size q) 4) as [E | Hne].
  - replace (length (Queue_contents q) + 1 - 4)%nat with 1%nat by lia.
    destruct (Queue_contents q); [simpl in Hsz; lia | reflexivity].
  - replace (length (Queue_contents q) + 1 - 4)%nat with O by lia. reflexivity.
Qed.

Lemma Queue_Enqueue_samples (q : Queue) (v : Z) :
  Queue_inv q ->
  Forall is_sample (Queue_contents q) ->
  is_sample v ->
  Forall is_sample (Queue_contents (Queue_Enqueue q v)).
Proof.
  intros Hinv Hall Hv. rewrite Queue_Enqueue_contents by exact Hinv.
  apply Forall_app. split.
  - destruct (size q =? QUEUE_SIZE); [apply Forall_tail_of |]; exact Hall.
  - constructor; [| constructor].
    rewrite to_uint16_id; [exact Hv |]. unfold is_sample in Hv. unfold is_uint16. lia.
Qed.

(** The average of a queue of samples, as a mean and within the sample
    range. *)
Lemma Queue_Average_samples (q : Queue) :
  Queue_inv q ->
  Forall is_sample (Queue_contents q) ->
  Queue_Average q =
    (if size q =? 0 then 0
     else Z.quot (sum_list_Z (Queue_contents q)) (size q)) /\
  is_sample (Queue_Average q).
Proof.
  intros Hinv Hall.
  pose proof (Queue_size_contents q Hinv) as Hsz.
  destruct (Z.eqb_spec (size q) 0) as [E | Hne].
  - unfold Queue_Average. rewrite E. simpl. unfold is_sample. split; [reflexivity | lia].
  - assert (Hpos : 0 < size q) by lia.
    rewrite (Queue_Average_exact q Hinv Hpos (is_sample_uint16 _ Hall)).
    split; [reflexivity |].
    assert (Hb : Forall (fun v => 0 <= v <= 4095) (Queue_contents q)) by exact Hall.
    pose proof (sum_list_Z_bounds _ _ Hb) as Hsum.
    rewrite Z.quot_div_nonneg by lia. unfold is_sample. split.
    + apply Z.div_pos; lia.
    + apply Z.lt_succ_r, Z.div_lt_upper_bound; nia.
Qed.

(** X4.  One step, whichever channel is active: it consumes one transfer
    word, appends its low 12 bits to the active channel's queue (dropping
    the oldest of four), sets that channel's average to the truncated mean of
    the queue as it now stands, moves the index on by one modulo 16, and
    leaves the queue and the average of every other channel as they were.
    The timestamp changes only in the step that leaves channel 15. *)
Theorem ProcessSamples_one_channel (w : World) (rx t1 t2 : Z)
    (spi_rest timer_rest : list Z) :
  Driver_inv (drv w) ->
  g_sampling_complete (drv w) = false ->
  (1 <= ready_count (gpio_in w))%nat ->
  spi_in w = rx :: spi_rest ->
  timer_in w = t1 :: t2 :: timer_rest ->
  Forall is_sample (Queue_contents (queue_of (current_channel (drv w)) w)) ->
  let ch := current_channel (drv w) in
  exists w',
    ADS7953_ProcessSamples w = Some (tt, w') /\
    spi_in w' = spi_rest /\
    current_channel (drv w') = (ch + 1) mod 16 /\
    Queue_contents (queue_of ch w') =
      lastn 4 (Queue_contents (queue_of ch w) ++ [Z.land (to_uint16 rx) 0x0FFF]) /\
    array_get (channel_averages (g_sample_set (drv w'))) ch =
      Z.quot (sum_list_Z (Queue_contents (queue_of ch w')))
             (Z.of_nat (length (Queue_contents (queue_of ch w')))) /\
    (forall c, 0 <= c < 16 -> c <> ch ->
       queue_of c w' = queue_of c w /\
       array_get (channel_averages (g_sample_set (drv w'))) c =
         array_get (channel_averages (g_sample_set (drv w))) c) /\
    timestamp (g_sample_set (drv w')) =
      (if ch =? 15 then to_uint32 (t1 - g_start_time (drv w))
       else timestamp (g_sample_set (drv w))).
Proof.
  intros Hinv Hopen Hready Hspi Htimer Hsamples ch.
  destruct (ProcessSamples_performs w rx t1 t2 spi_rest timer_rest
              Hinv Hopen Hready Hspi Htimer)
    as (w' & Hrun & Hqs & Havs & Hts & Hch' & _ & _ & Hspi' & _).
  assert (Hch : 0 <= ch < 16) by (destruct Hinv; assumption).
  assert (Hqinv : Queue_inv (queue_of ch w)).
  { destruct Hinv as (_ & Hlen & _ & Hall). apply queue_get_inv; [exact Hall | lia]. }
  exists w'. split; [exact Hrun |]. split; [exact Hspi' |]. split; [exact Hch' |].
  unfold queue_of. rewrite Hqs, Havs.
  destruct (step_record (to_uint16 rx) (drv w) ch Hinv Hch) as (Hq & Ha & _).
  cbv zeta in Hq, Ha. fold ch in Hq, Ha. rewrite Z.eqb_refl in Hq, Ha.
  set (q1 := Queue_Enqueue (queue_get (channel_queues (g_sample_set (drv w))) ch)
               (Z.land (to_uint16 rx) 0x0FFF)) in *.
  assert (Hq1inv : Queue_inv q1) by (apply Queue_Enqueue_inv, Hqinv).
  assert (Hq1c : Queue_contents q1 =
                 lastn 4 (Queue_contents (queue_of ch w) ++ [Z.land (to_uint16 rx) 0x0FFF])).
  { unfold q1. rewrite Queue_Enqueue_lastn by exact Hqinv.
    rewrite to_uint16_id; [reflexivity |].
    pose proof (is_sample_land (to_uint16 rx)) as Hs.
    unfold is_sample in Hs. unfold is_uint16. lia. }
  assert (Hq1s : Forall is_sample (Queue_contents q1))
    by (apply Queue_Enqueue_samples; [exact Hqinv | exact Hsamples | apply is_sample_land]).
  split; [rewrite Hq; exact Hq1c |].
  split.
  { rewrite Ha, Hq. rewrite <- (Queue_size_contents q1 Hq1inv).
    apply Queue_Average_exact; [exact Hq1inv | | apply is_sample_uint16, Hq1s].
    rewrite (Queue_size_contents q1 Hq1inv). unfold q1.
    rewrite Queue_Enqueue_contents, length_app by exact Hqinv. simpl. lia. }
  split; [| exact Hts].
  intros c Hc Hne.
  destruct (step_record (to_uint16 rx) (drv w) c Hinv Hc) as (Hqc & Hac & _).
  cbv zeta in Hqc, Hac. fold ch in Hqc, Hac.
  destruct (Z.eqb_spec c ch); [contradiction |]. split; assumption.
Qed.

Lemma ProcessSamples_one_channel_witness :
  exists w',
    ADS7953_ProcessSamples (demo_world [10; 20]) = Some (tt, w') /\
    spi_in w' = drop 1 demo_words /\
    current_channel (drv w') = 1 /\
    Queue_contents (queue_of 0 w') = [0x0123] /\
    array_get (channel_averages (g_sample_set (drv w'))) 0 =
      Z.quot (sum_list_Z (Queue_contents (queue_of 0 w')))
             (Z.of_nat (length (Queue_contents (queue_of 0 w')))) /\
    (forall c, 0 <= c < 16 -> c <> 0 ->
       queue_of c w' = queue_of c (demo_world [10; 20]) /\
       array_get (channel_averages (g_sample_set (drv w'))) c =
         array_get (channel_averages fresh_sample_set) c) /\
    timestamp (g_sample_set (drv w')) = 0.
Proof.
  apply (ProcessSamples_one_channel (demo_world [10; 20]) 0xF123 10 20
           (drop 1 demo_words) []).
  - exact fresh_driver_inv.
  - reflexivity.
  - vm_compute. lia.
  - reflexivity.
  - reflexivity.
  - constructor.
Defined.

(** X5.  The deadline is checked at the end of every step that performs, on
    a clock reading of its own (the second reading of the step that leaves
    channel 15, which first reads the clock for the timestamp).  The step
    completes the session exactly when 60000 ms or more have elapsed at that
    reading; it then raises chip select, and otherwise leaves it alone.
    Either way the sample it has read is kept. *)
Theorem ProcessSamples_completes_at_deadline (w : World) (rx t1 t2 : Z)
    (spi_rest timer_rest : list Z) :
  Driver_inv (drv w) ->
  g_sampling_complete (drv w) = false ->
  (1 <= ready_count (gpio_in w))%nat ->
  spi_in w = rx :: spi_rest ->
  timer_in w = t1 :: t2 :: timer_rest ->
  let ch := current_channel (drv w) in
  let due := 60000 <=? elapsed (if ch =? 15 then t2 else t1) (drv w) in
  exists w',
    ADS7953_ProcessSamples w = Some (tt, w') /\
    g_sampling_complete (drv w') = due /\
    cs_level (hw_out w') = (if due then Some true else cs_level (hw_out w)) /\
    timer_in w' = (if ch =? 15 then timer_rest else t2 :: timer_rest) /\
    queue_of ch w' = Queue_Enqueue (queue_of ch w) (Z.land (to_uint16 rx) 0x0FFF).
Proof.
  intros Hinv Hopen Hready Hspi Htimer ch due.
  destruct (ProcessSamples_performs w rx t1 t2 spi_rest timer_rest
              Hinv Hopen Hready Hspi Htimer)
    as (w' & Hrun & Hqs & _ & _ & _ & _ & Hflag & _ & Htim & Hout).
  assert (Hch : 0 <= ch < 16) by (destruct Hinv; assumption).
  exists w'. split; [exact Hrun |]. split; [exact Hflag |].
  split; [| split; [exact Htim |]].
  - rewrite Hout. fold ch. fold due. destruct due.
    + rewrite cs_level_snoc. reflexivity.
    + rewrite app_nil_r, cs_level_snoc. reflexivity.
  - unfold queue_of. rewrite Hqs.
    destruct (step_record (to_uint16 rx) (drv w) ch Hinv Hch) as (Hq & _).
    cbv zeta in Hq. fold ch in Hq. rewrite Z.eqb_refl in Hq. exact Hq.
Qed.

Lemma ProcessSamples_completes_at_deadline_witness :
  exists w',
    ADS7953_ProcessSamples (demo_world [60000; 60001]) = Some (tt, w') /\
    g_sampling_complete (drv w') = true /\
    cs_level (hw_out w') = Some true /\
    timer_in w' = [60001] /\
    queue_of 0 w' = Queue_Enqueue (Queue_Init zero_queue) 0x0123.
Proof.
  apply (ProcessSamples_completes_at_deadline (demo_world [60000; 60001]) 0xF123
           60000 60001 (drop 1 demo_words) []).
  - exact fresh_driver_inv.
  - reflexivity.
  - vm_compute. lia.
  - reflexivity.
  - reflexivity.
Defined.

Lemma queue_get_replicate (q : Queue) (c : Z) :
  0 <= c < 16 -> queue_get (replicate 16 q) c = q.
Proof.
  intros Hc. unfold queue_get. destruct (Z.leb_spec 0 c); [| lia].
  rewrite lookup_replicate_2 by lia. reflexivity.
Qed.

Lemma array_get_replicate (x : Z) (c : Z) :
  0 <= c < 16 -> array_get (replicate 16 x) c = x.
Proof.
  intros Hc. unfold array_get. destruct (Z.leb_spec 0 c); [| lia].
  rewrite lookup_replicate_2 by lia. reflexivity.
Qed.

(** X6.  [ADS7953_Init] needs one word from the bus and then always returns.
    It sends the configuration word 0x3800 (Auto-1, external reference, 2x
    gain) framed by chip select and leaves chip select high.  It empties
    every queue, clears every average and the timestamp, whatever they held.
    It does not touch the completion flag, the start time or the active
    channel index, and it reads neither the clock nor the ready line. *)
Theorem Init_resets_bank (config : ADS7953_Config) (w : World) (a : Z)
    (spi_rest : list Z) :
  spi_in w = a :: spi_rest ->
  exists w',
    ADS7953_Init config w = Some (tt, w') /\
    (forall c, 0 <= c < 16 ->
       Queue_contents (queue_of c w') = [] /\
       Queue_inv (queue_of c w') /\
       array_get (channel_averages (g_sample_set (drv w'))) c = 0) /\
    timestamp (g_sample_set (drv w')) = 0 /\
    g_sampling_complete (drv w') = g_sampling_complete (drv w) /\
    g_start_time (drv w') = g_start_time (drv w) /\
    current_channel (drv w') = current_channel (drv w) /\
    spi_in w' = spi_rest /\
    timer_in w' = timer_in w /\
    gpio_in w' = gpio_in w /\
    cs_level (hw_out w') = Some true /\
    hw_out w' = hw_out w ++
      [Ev_SPI_Init (spi_channel config) (spi_speed config);
       Ev_GPIO_SetOutput ADS7953_CS_PIN;
       Ev_GPIO_SetInput ADS7953_BUSY_PIN;
       Ev_GPIO_SetHigh ADS7953_CS_PIN;
       Ev_GPIO_SetLow ADS7953_CS_PIN;
       Ev_SPI_Transfer16 (spi_channel config) 0x3800;
       Ev_GPIO_SetHigh ADS7953_CS_PIN].
Proof.
  intros Hspi. rewrite (Init_eq config w a spi_rest Hspi).
  eexists. split; [reflexivity |]. cbn [drv timer_in spi_in gpio_in hw_out].
  split; [| repeat split].
  - intros c Hc. unfold queue_of. cbn [drv]. simpl g_sample_set.
    unfold fresh_sample_set; cbn [channel_queues channel_averages].
    rewrite queue_get_replicate, array_get_replicate by exact Hc.
    split; [reflexivity |]. split; [| reflexivity].
    apply Queue_Init_inv. reflexivity.
  - unfold cs_level. rewrite fold_left_app. reflexivity.
Qed.

Lemma Init_resets_bank_witness :
  exists w',
    ADS7953_Init demo_config (demo_world [7]) = Some (tt, w') /\
    (forall c, 0 <= c < 16 ->
       Queue_contents (queue_of c w') = [] /\
       Queue_inv (queue_of c w') /\
       array_get (channel_averages (g_sample_set (drv w'))) c = 0) /\
    timestamp (g_sample_set (drv w')) = 0 /\
    g_sampling_complete (drv w') = false /\
    g_start_time (drv w') = 0 /\
    current_channel (drv w') = 0 /\
    spi_in w' = drop 1 demo_words /\
    timer_in w' = [7] /\
    gpio_in w' = demo_levels /\
    cs_level (hw_out w') = Some true /\
    hw_out w' =
      [Ev_SPI_Init 1 1000000; Ev_GPIO_SetOutput 10; Ev_GPIO_SetInput 11;
       Ev_GPIO_SetHigh 10; Ev_GPIO_SetLow 10; Ev_SPI_Transfer16 1 0x3800;
       Ev_GPIO_SetHigh 10].
Proof.
  apply (Init_resets_bank demo_config (demo_world [7]) 0xF123 (drop 1 demo_words)).
  reflexivity.
Defined.

(** X7.  The deadline survives the wrap-around of the 32-bit millisecond
    clock: when the clock has advanced by [delta] ms since the start, so that
    it reads [(start + delta) mod 2^32], a poll of a session that is not
    complete returns whether [delta] has reached 60000, also when the reading
    is numerically below the start time. *)
Theorem IsSamplingComplete_clock_wraparound (w : World) (delta : Z) (timer_rest : list Z) :
  g_sampling_complete (drv w) = false ->
  0 <= g_start_time (drv w) < 4294967296 ->
  0 <= delta < 4294967296 ->
  timer_in w = (g_start_time (drv w) + delta) mod 4294967296 :: timer_rest ->
  exists w',
    ADS7953_IsSamplingComplete w = Some (60000 <=? delta, w') /\
    g_sampling_complete (drv w') = (60000 <=? delta) /\
    timer_in w' = timer_rest.
Proof.
  intros Hopen Hstart Hdelta Htimer.
  rewrite (IsSamplingComplete_poll w _ timer_rest Hopen Htimer).
  assert (E : elapsed ((g_start_time (drv w) + delta) mod 4294967296) (drv w) = delta).
  { unfold elapsed, to_uint32. rewrite Z.mod_mod by lia.
    rewrite Zminus_mod_idemp_l.
    replace (g_start_time (drv w) + delta - g_start_time (drv w)) with delta by lia.
    apply Z.mod_small. lia. }
  rewrite E. destruct (60000 <=? delta); eexists; repeat split; exact Hopen.
Qed.

Lemma IsSamplingComplete_clock_wraparound_witness :
  exists w',
    ADS7953_IsSamplingComplete
      (set_drv (set_g_start_time 4294967000 fresh_driver) (demo_world [59704]))
    = Some (true, w') /\
    g_sampling_complete (drv w') = true /\
    timer_in w' = [].
Proof.
  apply (IsSamplingComplete_clock_wraparound
           (set_drv (set_g_start_time 4294967000 fresh_driver) (demo_world [59704]))
           60000 []).
  - reflexivity.
  - simpl. lia.
  - lia.
  - reflexivity.
Defined.



(** X9.  Starting a session does not clear the sample bank: the queues, the
    averages and the timestamp carry over from before, and so does the
    active channel index.  It discards two transfer words, leaves chip
    select low, and closes the read-out: a [ADS7953_GetResults] that follows
    writes nothing into the destination, also when the session before was
    complete. *)
Theorem StartSampling_then_GetResults (w : World) (t a b : Z)
    (timer_rest spi_rest : list Z) (results : ADS7953_SampleSet) :
  timer_in w = t :: timer_rest ->
  spi_in w = a :: b :: spi_rest ->
  exists w1,
    (ADS7953_StartSampling;; ADS7953_GetResults results) w = Some (results, w1) /\
    g_sample_set (drv w1) = g_sample_set (drv w) /\
    current_channel (drv w1) = current_channel (drv w) /\
    g_start_time (drv w1) = t mod 4294967296 /\
    spi_in w1 = spi_rest /\
    timer_in w1 = timer_rest /\
    cs_level (hw_out w1) = Some false.
Proof.
  intros Htimer Hspi. cbv [mbind M_bind].
  rewrite (StartSampling_eq w t timer_rest a b spi_rest Htimer Hspi).
  rewrite GetResults_eq. cbn [drv]. simpl g_sampling_complete. cbv iota.
  eexists. split; [reflexivity |]. cbn [drv timer_in spi_in gpio_in hw_out].
  repeat split. unfold cs_level. rewrite fold_left_app. reflexivity.
Qed.

Lemma StartSampling_then_GetResults_witness :
  exists w1,
    (ADS7953_StartSampling;; ADS7953_GetResults zero_sample_set)
      (set_drv (set_g_sampling_complete true fresh_driver) (demo_world [5]))
    = Some (zero_sample_set, w1) /\
    g_sample_set (drv w1) = fresh_sample_set /\
    current_channel (drv w1) = 0 /\
    g_start_time (drv w1) = 5 /\
    spi_in w1 = drop 2 demo_words /\
    timer_in w1 = [] /\
    cs_level (hw_out w1) = Some false.
Proof.
  apply (StartSampling_then_GetResults
           (set_drv (set_g_sampling_complete true fresh_driver) (demo_world [5]))
           5 0xF123 101 [] (drop 2 demo_words) zero_sample_set); reflexivity.
Defined.

(** *** The sample bank stays coherent *)

Lemma Bank_inv_same (d d' : Driver) :
  channel_queues (g_sample_set d') = channel_queues (g_sample_set d) ->
  channel_averages (g_sample_set d') = channel_averages (g_sample_set d) ->
  current_channel d' = current_channel d ->
  Bank_inv d -> Bank_inv d'.
Proof.
  intros Hq Ha Hc. unfold Bank_inv, Driver_inv, SampleSet_inv.
  rewrite Hq, Ha, Hc. exact (fun H => H).
Qed.

Lemma Bank_inv_fresh (d : Driver) :
  0 <= current_channel d < 16 ->
  Bank_inv (set_g_sample_set fresh_sample_set d).
Proof.
  intros Hch. split.
  - split; [exact Hch | apply fresh_driver_inv].
  - intros c Hc. simpl g_sample_set.
    unfold fresh_sample_set; cbn [channel_queues channel_averages].
    rewrite queue_get_replicate, array_get_replicate by exact Hc.
    split; [constructor | reflexivity].
Qed.

Lemma Bank_inv_step (result : Z) (d : Driver) :
  Bank_inv d ->
  Bank_inv (next_channel (store_average (store_result result d))).
Proof.
  intros (Hinv & Hbank). split; [apply step_inv, Hinv |].
  intros c Hc.
  destruct (step_record result d c Hinv Hc) as (Hq & Ha & _).
  cbv zeta in Hq, Ha. rewrite Hq, Ha. clear Hq Ha.
  destruct (Hbank c Hc) as (Hs & Hav).
  destruct (Z.eqb_spec c (current_channel d)) as [E | Hne].
  - split; [| reflexivity].
    apply Queue_Enqueue_samples; [| exact Hs | apply is_sample_land].
    destruct Hinv as (_ & Hlen & _ & Hall). apply queue_get_inv; [exact Hall | lia].
  - split; assumption.
Qed.

(** What a step that returns has done to the bank: nothing, or one
    recording step. *)
Lemma ProcessSamples_bank (w w' : World) :
  ADS7953_ProcessSamples w = Some (tt, w') ->
  (channel_queues (g_sample_set (drv w')) = channel_queues (g_sample_set (drv w)) /\
   channel_averages (g_sample_set (drv w')) = channel_averages (g_sample_set (drv w)) /\
   current_channel (drv w') = current_channel (drv w)) \/
  (exists rx,
     let d1 := next_channel (store_average (store_result (to_uint16 rx) (drv w))) in
     channel_queues (g_sample_set (drv w')) = channel_queues (g_sample_set d1) /\
     channel_averages (g_sample_set (drv w')) = channel_averages (g_sample_set d1) /\
     current_channel (drv w') = current_channel d1).
Proof.
  intros Hrun. destruct (g_sampling_complete (drv w)) eqn:Hflag.
  - rewrite ProcessSamples_done in Hrun by exact Hflag.
    injection Hrun as <-. left. repeat split.
  - right. destruct w as [d ti si gi out]; simpl in Hflag.
    revert Hrun. unfold ADS7953_ProcessSamples. run_M. rewrite Hflag. run_M.
    destruct (skip_until_ready gi) as [g' |]; [| discriminate].
    destruct si as [| rx spi']; [discriminate |].
    exists rx. cbv zeta.
    set (d1 := next_channel (store_average (store_result (to_uint16 rx) d))) in *.
    revert Hrun.
    destruct (current_channel d1 =? 0);
      [destruct ti as [| t1 ts]; [discriminate |] |];
      (match goal with
       | |- context [ADS7953_IsSamplingComplete ?w1] =>
           destruct (ADS7953_IsSamplingComplete w1) as [[b w2] |] eqn:Hpoll;
             [| discriminate]
       end;
       intros [= Hw]; subst w';
       destruct (IsSamplingComplete_drv _ _ _ Hpoll) as (Hs & Hc & _);
       change (channel_queues (g_sample_set (drv w2)) = channel_queues (g_sample_set d1) /\
               channel_averages (g_sample_set (drv w2)) = channel_averages (g_sample_set d1) /\
               current_channel (drv w2) = current_channel d1);
       rewrite Hs, Hc; repeat split).
Qed.

Lemma run_op_Bank_inv (o : Op) (w w' : World) :
  Bank_inv (drv w) ->
  run_op o w = Some (tt, w') ->
  Bank_inv (drv w').
Proof.
  intros Hbank Hrun. destruct o as [config | | | | results]; simpl in Hrun.
  - destruct (spi_in w) as [| a spi'] eqn:Hs.
    + destruct w as [d ti si gi out]; simpl in Hs. subst si.
      revert Hrun. unfold ADS7953_Init. run_M. discriminate.
    + rewrite (Init_eq config w a spi' Hs) in Hrun. injection Hrun as <-.
      apply Bank_inv_fresh. destruct Hbank as ((Hch & _) & _). exact Hch.
  - destruct w as [d ti si gi out].
    revert Hrun. unfold ADS7953_StartSampling. run_M.
    destruct ti as [| t ts]; [discriminate |].
    destruct si as [| a [| b spi']]; try discriminate.
    intros [= <-]. exact Hbank.
  - revert Hrun. cbv [mbind M_bind mret M_ret].
    destruct (ADS7953_IsSamplingComplete w) as [[b w1] |] eqn:Hpoll; [| discriminate].
    intros [= <-].
    destruct (IsSamplingComplete_drv _ _ _ Hpoll) as (Hs & Hc & _).
    apply (Bank_inv_same (drv w)); [rewrite Hs | rewrite Hs | exact Hc | exact Hbank];
      reflexivity.
  - destruct (ProcessSamples_bank w w' Hrun) as [(Hq & Ha & Hc) | (rx & Hq & Ha & Hc)].
    + exact (Bank_inv_same _ _ Hq Ha Hc Hbank).
    + exact (Bank_inv_same _ _ Hq Ha Hc (Bank_inv_step _ _ Hbank)).
  - revert Hrun. cbv [mbind M_bind mret M_ret]. rewrite GetResults_eq.
    intros [= <-]. exact Hbank.
Qed.

Lemma run_ops_Bank_inv (os : list Op) (w w' : World) :
  Bank_inv (drv w) ->
  run_ops os w = Some (tt, w') ->
  Bank_inv (drv w').
Proof.
  revert w. induction os as [| o os IH]; intros w Hbank Hrun.
  - injection Hrun as <-. exact Hbank.
  - revert Hrun. simpl. cbv [mbind M_bind].
    destruct (run_op o w) as [[[] w1] |] eqn:Hop; [| discriminate].
    intros Hrun. exact (IH w1 (run_op_Bank_inv o w w1 Hbank Hop) Hrun).
Qed.

Lemma run_ops_after_Init (config : ADS7953_Config) (os : list Op) (w w' : World) :
  0 <= current_channel (drv w) < 16 ->
  run_ops (Op_Init config :: os) w = Some (tt, w') ->
  Bank_inv (drv w').
Proof.
  intros Hch Hrun. revert Hrun. simpl. cbv [mbind M_bind].
  destruct (ADS7953_Init config w) as [[[] w1] |] eqn:Hinit; [| discriminate].
  intros Hrun. apply (run_ops_Bank_inv os w1 w'); [| exact Hrun].
  destruct (spi_in w) as [| a spi'] eqn:Hs.
  - destruct w as [d ti si gi out]; simpl in Hs. subst si.
    revert Hinit. unfold ADS7953_Init. run_M. discriminate.
  - rewrite (Init_eq config w a spi' Hs) in Hinit. injection Hinit as <-.
    apply Bank_inv_fresh, Hch.
Qed.

(** X10.  Every index stays inside its array: in any state reached from an
    initialisation by any sequence of calls of the driver's functions, the
    active channel index is within 0..15, there are 16 queues and 16
    averages, and every queue has four cells, [front] within 0..3, [rear]
    within -1..3, and [size] within 0..4 equal to the number of elements it
    holds. *)
Theorem indices_stay_in_range (config : ADS7953_Config) (os : list Op) (w w' : World) :
  0 <= current_channel (drv w) < 16 ->
  run_ops (Op_Init config :: os) w = Some (tt, w') ->
  0 <= current_channel (drv w') < 16 /\
  length (channel_queues (g_sample_set (drv w'))) = 16%nat /\
  length (channel_averages (g_sample_set (drv w'))) = 16%nat /\
  forall c, 0 <= c < 16 ->
    length (data (queue_of c w')) = 4%nat /\
    0 <= front (queue_of c w') < 4 /\
    -1 <= rear (queue_of c w') < 4 /\
    0 <= size (queue_of c w') <= 4 /\
    size (queue_of c w') = Z.of_nat (length (Queue_contents (queue_of c w'))).
Proof.
  intros Hch Hrun.
  destruct (run_ops_after_Init config os w w' Hch Hrun) as ((Hch' & Hlq & Hla & Hall) & _).
  split; [exact Hch' |]. split; [exact Hlq |]. split; [exact Hla |].
  intros c Hc.
  assert (Hq : Queue_inv (queue_of c w')) by (apply queue_get_inv; [exact Hall | lia]).
  pose proof (Queue_size_contents _ Hq) as Hsz.
  destruct Hq as (H1 & H2 & H3 & H4 & _). repeat split; (assumption || lia).
Qed.

(** X11.  Every stored average is up to date and in range: in any state
    reached from an initialisation by any sequence of calls, each channel's
    queue holds 12-bit samples only, and the channel's stored average is 0
    if the queue is empty and otherwise the sum of the elements the queue
    holds divided by their number, truncated; it lies within 0..4095. *)
Theorem averages_are_means (config : ADS7953_Config) (os : list Op) (w w' : World) :
  0 <= current_channel (drv w) < 16 ->
  run_ops (Op_Init config :: os) w = Some (tt, w') ->
  forall c, 0 <= c < 16 ->
    Forall is_sample (Queue_contents (queue_of c w')) /\
    array_get (channel_averages (g_sample_set (drv w'))) c =
      (if size (queue_of c w') =? 0 then 0
       else Z.quot (sum_list_Z (Queue_contents (queue_of c w')))
                   (size (queue_of c w'))) /\
    is_sample (array_get (channel_averages (g_sample_set (drv w'))) c).
Proof.
  intros Hch Hrun c Hc.
  destruct (run_ops_after_Init config os w w' Hch Hrun) as ((_ & Hlq & _ & Hall) & Hbank).
  destruct (Hbank c Hc) as (Hs & Hav).
  assert (Hq : Queue_inv (queue_of c w')) by (apply queue_get_inv; [exact Hall | lia]).
  destruct (Queue_Average_samples _ Hq Hs) as (Hmean & Hrange).
  unfold queue_of in *. rewrite Hav. split; [exact Hs |]. split; assumption.
Qed.

Lemma indices_stay_in_range_witness :
  exists w',
    run_ops demo_session demo_power_on = Some (tt, w') /\
    0 <= current_channel (drv w') < 16 /\
    length (channel_queues (g_sample_set (drv w'))) = 16%nat /\
    length (channel_averages (g_sample_set (drv w'))) = 16%nat /\
    forall c, 0 <= c < 16 ->
      length (data (queue_of c w')) = 4%nat /\
      0 <= front (queue_of c w') < 4 /\
      -1 <= rear (queue_of c w') < 4 /\
      0 <= size (queue_of c w') <= 4 /\
      size (queue_of c w') = Z.of_nat (length (Queue_contents (queue_of c w'))).
Proof.
  eexists. split; [lazy; reflexivity |].
  apply (indices_stay_in_range demo_config (tail demo_session) demo_power_on).
  - simpl. lia.
  - reflexivity.
Defined.

Lemma averages_are_means_witness :
  exists w',
    run_ops demo_session demo_power_on = Some (tt, w') /\
    forall c, 0 <= c < 16 ->
      Forall is_sample (Queue_contents (queue_of c w')) /\
      array_get (channel_averages (g_sample_set (drv w'))) c =
        (if size (queue_of c w') =? 0 then 0
         else Z.quot (sum_list_Z (Queue_contents (queue_of c w')))
                     (size (queue_of c w'))) /\
      is_sample (array_get (channel_averages (g_sample_set (drv w'))) c).
Proof.
  eexists. split; [lazy; reflexivity |].
  apply (averages_are_means demo_config (tail demo_session) demo_power_on).
  - simpl. lia.
  - reflexivity.
Defined.
